(** * DocumentQAProject: the document processing and query pipeline

    A shallow embedding of [backend/gemini.py] and [backend/models.py]:
    the in-memory [documents_store], the ingestion coroutine
    [process_pdf_document], the three query coroutines [query_document],
    [summarize_document_section] and [extract_evaluation_results], and the
    paper search [arxiv_lookup_tool].

    Python values that arrive from [json.loads] are untyped in the source
    ([Dict[str, Any]]); they are modelled by the type [json] below and every
    dynamic operation the source performs on them (subscripting, [.get],
    [.lower()], [.strip()], [+], iteration, f-string formatting) is written
    out with the exception Python raises when the operand has the wrong
    shape.

    The coroutines are modelled sequentially: one call runs from start to
    end against the process-wide state [World]; what the third-party
    libraries and services answer during that call is the environment
    [Env].  The HTTP handlers of [backend/main.py], which turn the
    exceptions raised here into status codes, are modelled after the
    coroutines, together with the response classes they build; the
    framework around them and [backend/config.py] are outside the
    model. *)

From Stdlib Require Import ZArith String Ascii List Bool Lia.
From stdpp Require Import base option gmap strings list pretty.

Set Warnings "-register-all".
Local Open Scope string_scope.

(** ** Python strings

    A [str] is modelled as a [string] whose characters are the code points
    0..255 (the Latin-1 range of Unicode). *)

Module pystr.

Definition code (c : ascii) : nat := nat_of_ascii c.

Definition between (lo hi n : nat) : bool := (lo <=? n)%nat && (n <=? hi)%nat.

(** [str.isspace] on one character: TAB..CR, FS..US, SPACE, NEL, NBSP. *)
Definition isspace (c : ascii) : bool :=
  between 9 13 (code c) || between 28 32 (code c)
  || (code c =? 133)%nat || (code c =? 160)%nat.

(** [str.lower] on one character: A..Z and the Latin-1 capitals
    (0xC0..0xDE without the multiplication sign 0xD7) move up by 32. *)
Definition lower_char (c : ascii) : ascii :=
  if between 65 90 (code c)
     || (between 192 222 (code c) && negb (code c =? 215)%nat)
  then ascii_of_nat (code c + 32)
  else c.

Fixpoint lower (s : string) : string :=
  match s with
  | EmptyString => EmptyString
  | String c r => String (lower_char c) (lower r)
  end.

Fixpoint lstrip (s : string) : string :=
  match s with
  | EmptyString => EmptyString
  | String c r => if isspace c then lstrip r else s
  end.

Fixpoint rstrip (s : string) : string :=
  match s with
  | EmptyString => EmptyString
  | String c r =>
      match rstrip r with
      | EmptyString => if isspace c then EmptyString else String c EmptyString
      | r' => String c r'
      end
  end.

(** [s.strip()] with no argument. *)
Definition strip (s : string) : string := lstrip (rstrip s).

(** Every character of [s] is whitespace (true of the empty string). *)
Fixpoint all_space (s : string) : bool :=
  match s with
  | EmptyString => true
  | String c r => isspace c && all_space r
  end.

(** Truthiness of a [str]: the empty string is falsy. *)
Definition truthy (s : string) : bool :=
  match s with EmptyString => false | _ => true end.

Definition nl : string := String (ascii_of_nat 10) EmptyString.
Definition dq : string := String (ascii_of_nat 34) EmptyString.

(** Join the lines of a multi-line literal with newlines. *)
Fixpoint unlines (ls : list string) : string :=
  match ls with
  | [] => EmptyString
  | [l] => l
  | l :: rest => l ++ nl ++ unlines rest
  end.

End pystr.

(** ** Values decoded from JSON

    What [json.loads] builds: [None], [bool], [int], [float], [str],
    [list] and [dict] with string keys.  A [dict] keeps insertion order and
    is an association list with one entry per key; a [float] is kept as
    its literal. *)

Inductive json : Type :=
| JNull
| JBool (b : bool)
| JInt (z : Z)
| JFloat (literal : string)
| JStr (s : string)
| JArr (items : list json)
| JObj (fields : list (string * json)).

(** [type(v).__name__], as it appears in Python's error messages. *)
Definition type_name (v : json) : string :=
  match v with
  | JNull => "NoneType"
  | JBool _ => "bool"
  | JInt _ => "int"
  | JFloat _ => "float"
  | JStr _ => "str"
  | JArr _ => "list"
  | JObj _ => "dict"
  end.

(** Lookup of a key in a [dict]. *)
Fixpoint dict_lookup (k : string) (d : list (string * json)) : option json :=
  match d with
  | [] => None
  | (k', v) :: rest => if String.eqb k k' then Some v else dict_lookup k rest
  end.

(** [d.get(k, default)]. *)
Definition dict_get (d : list (string * json)) (k : string) (default : json) : json :=
  match dict_lookup k d with
  | Some v => v
  | None => default
  end.

(** ** Exceptions

    One constructor per exception class the coroutines can meet.  In
    Python [JSONDecodeError] is a subclass of [ValueError]; the two are
    kept apart here because the source tells them apart (it catches
    [json.JSONDecodeError] by name) and because the errors the source
    raises itself are plain [ValueError]s recognised by their message.
    The texts of the interpreter's own messages follow CPython 3.10. *)

Inductive exn : Type :=
| ValueError (msg : string)
| KeyError (key : string)
| TypeError (msg : string)
| AttributeError (msg : string)
| JSONDecodeError (msg : string)
| ValidationError (msg : string)
| APIError (msg : string)
| ArxivError (msg : string).

(** [str(e)]; a [KeyError] prints the [repr] of its key.  The text of a
    pydantic [ValidationError] depends on the release; the name of the
    field that failed stands for it. *)
Definition exn_str (e : exn) : string :=
  match e with
  | ValueError m | TypeError m | AttributeError m
  | JSONDecodeError m | ValidationError m | APIError m | ArxivError m => m
  | KeyError k => "'" ++ k ++ "'"
  end.

Inductive outcome (A : Type) : Type :=
| Returns (a : A)
| Raises (e : exn).
Arguments Returns {A} a.
Arguments Raises {A} e.

#[global] Instance outcome_ret : MRet outcome := fun A a => Returns a.

#[global] Instance outcome_bind : MBind outcome := fun A B f o =>
  match o with
  | Returns a => f a
  | Raises e => Raises e
  end.

Definition no_attribute (v : json) (attr : string) : exn :=
  AttributeError ("'" ++ type_name v ++ "' object has no attribute '" ++ attr ++ "'").

(** ** [backend/models.py] *)

Module models.

(** [class ProcessedDocument(BaseModel)]: [metadata: Dict[str, Any]]. *)
Record ProcessedDocument : Type := {
  id : string;
  filename : string;
  extracted_text : string;
  metadata : list (string * json);
}.

(** Validation of a value decoded from JSON against a field declared
    [str].  Every pydantic release accepts a [str] as it is and rejects
    [None], a [list] and a [dict]; whether a [bool], [int] or [float] is
    turned into a string (pydantic 1) or rejected (pydantic 2) depends on
    the release installed, so that answer is the argument [coerce]. *)
Definition validate_str (coerce : json -> option string) (field : string)
    (v : json) : outcome string :=
  match v with
  | JStr s => Returns s
  | JNull | JArr _ | JObj _ => Raises (ValidationError field)
  | JBool _ | JInt _ | JFloat _ =>
      match coerce v with
      | Some s => Returns s
      | None => Raises (ValidationError field)
      end
  end.

(** [ProcessedDocument(id=.., filename=.., extracted_text=.., metadata=..)]
    where [id] and [filename] are already [str] and [metadata] is a [dict]
    with string keys. *)
Definition ProcessedDocument_init (coerce : json -> option string)
    (id_ filename_ : string) (extracted_text_ : json)
    (metadata_ : list (string * json)) : outcome ProcessedDocument :=
  match validate_str coerce "extracted_text" extracted_text_ with
  | Returns t =>
      Returns {| id := id_; filename := filename_;
                 extracted_text := t; metadata := metadata_ |}
  | Raises e => Raises e
  end.

End models.

(** ** The world outside the repository *)

(** One part of a multi-part message content. *)
Inductive content_part : Type :=
| TextPart (text : string)
| ImageUrlPart (url : string) (detail : string).

Inductive message_content : Type :=
| ContentText (text : string)
| ContentParts (parts : list content_part).

(** The keyword arguments of [client.chat.completions.create]; every call
    of the source sends one message with role [user]. *)
Record ChatRequest : Type := {
  model : string;
  user_content : message_content;
  response_format : option string;
  temperature : string;
}.

(** One [arxiv.Result], with [published] already in ISO format. *)
Record ArxivResult : Type := {
  result_title : string;
  result_authors : list string;
  result_summary : string;
  result_entry_id : string;
  result_published_isoformat : string;
}.

(** What the libraries and services answer during one call.  A failure
    carries the text of the exception raised. *)
Record Env : Type := {
  (** [filetype.guess(content)]: the [mime] of the kind, [None] if no kind. *)
  filetype_guess : list Byte.byte -> option string;
  (** [str(uuid.uuid4())]. *)
  uuid4 : string;
  (** PyMuPDF: the PNG bytes of every page in order, or the exception. *)
  fitz_render : list Byte.byte -> string + list (list Byte.byte);
  (** [base64.b64encode(b).decode('utf-8')]. *)
  b64encode : list Byte.byte -> string;
  (** The generation capability: [message.content] of the first choice,
      taken to be a [str], or the exception of the client. *)
  chat_create : ChatRequest -> string + string;
  (** [json.loads]: the value, or the message of the [JSONDecodeError]. *)
  json_loads : string -> string + json;
  (** [json.dumps(v, indent=2)]. *)
  json_dumps : json -> string;
  (** [str(v)] of a [float], [list] or [dict]. *)
  py_repr : json -> string;
  (** the installed pydantic's coercion of a scalar to [str], if any. *)
  pydantic_coerce : json -> option string;
  (** [arxiv.Search(query, max_results, ..).results()]: the results it
      yields and, when the import, the search or the iteration raises,
      the exception that ends it. *)
  arxiv_results : string -> Z -> list ArxivResult * option string;
}.

(** The state of the process. *)
Record World : Type := {
  documents_store : gmap string models.ProcessedDocument;
  (** the requests sent to the generation capability so far, oldest first *)
  chat_calls : list ChatRequest;
  (** the lines printed so far, oldest first *)
  stdout : list string;
}.

(** ** Computations: state passing with exceptions

    An exception does not undo what was done to the world before it. *)

Definition M (A : Type) : Type := World -> outcome A * World.

#[global] Instance M_ret : MRet M := fun A a w => (Returns a, w).

#[global] Instance M_bind : MBind M := fun A B f m w =>
  match m w with
  | (Returns a, w') => f a w'
  | (Raises e, w') => (Raises e, w')
  end.

Definition raise {A : Type} (e : exn) : M A := fun w => (Raises e, w).

Definition lift {A : Type} (o : outcome A) : M A := fun w => (o, w).

(** [try: m  except Exception as e: handler e]. *)
Definition try_except {A : Type} (m : M A) (handler : exn -> M A) : M A :=
  fun w =>
    match m w with
    | (Returns a, w') => (Returns a, w')
    | (Raises e, w') => handler e w'
    end.

Definition print (line : string) : M unit := fun w =>
  (Returns tt,
   {| documents_store := documents_store w;
      chat_calls := chat_calls w;
      stdout := stdout w ++ [line] |}).

(** [document_id in documents_store]. *)
Definition store_contains (document_id : string) : M bool := fun w =>
  (Returns (bool_decide (is_Some (documents_store w !! document_id))), w).

(** [documents_store[document_id]]. *)
Definition store_getitem (document_id : string) : M models.ProcessedDocument :=
  fun w =>
    match documents_store w !! document_id with
    | Some doc => (Returns doc, w)
    | None => (Raises (KeyError document_id), w)
    end.

(** [documents_store[doc_id] = processed_doc]. *)
Definition store_setitem (doc_id : string) (processed_doc : models.ProcessedDocument)
    : M unit := fun w =>
  (Returns tt,
   {| documents_store := <[doc_id := processed_doc]> (documents_store w);
      chat_calls := chat_calls w;
      stdout := stdout w |}).

(** [await client.chat.completions.create(..)] followed by
    [response.choices[0].message.content]. *)
Definition chat_completion (E : Env) (req : ChatRequest) : M string := fun w =>
  let w' := {| documents_store := documents_store w;
               chat_calls := chat_calls w ++ [req];
               stdout := stdout w |} in
  match chat_create E req with
  | inr content => (Returns content, w')
  | inl err => (Raises (APIError err), w')
  end.

(** ** Dynamic operations on decoded values *)

Module py.

(** [for x in v]: the sequence a [for] loop walks. *)
Definition iter (v : json) : outcome (list json) :=
  match v with
  | JArr items => Returns items
  | JObj fields => Returns (map (fun kv => JStr (fst kv)) fields)
  | JStr s => Returns (map (fun c => JStr (String c EmptyString)) (list_ascii_of_string s))
  | _ => Raises (TypeError ("'" ++ type_name v ++ "' object is not iterable"))
  end.

(** [v[key]] with a string key. *)
Definition getitem (v : json) (key : string) : outcome json :=
  match v with
  | JObj fields =>
      match dict_lookup key fields with
      | Some x => Returns x
      | None => Raises (KeyError key)
      end
  | JStr _ => Raises (TypeError "string indices must be integers")
  | JArr _ => Raises (TypeError "list indices must be integers or slices, not str")
  | _ => Raises (TypeError ("'" ++ type_name v ++ "' object is not subscriptable"))
  end.

(** [v.lower()]. *)
Definition lower (v : json) : outcome string :=
  match v with
  | JStr s => Returns (pystr.lower s)
  | _ => Raises (no_attribute v "lower")
  end.

(** [v.strip()]. *)
Definition strip (v : json) : outcome string :=
  match v with
  | JStr s => Returns (pystr.strip s)
  | _ => Raises (no_attribute v "strip")
  end.

(** [v + s] for a [str] [s]. *)
Definition add_str (v : json) (s : string) : outcome string :=
  match v with
  | JStr t => Returns (t ++ s)
  | JArr _ =>
      Raises (TypeError ("can only concatenate list (not " ++ pystr.dq ++ "str"
                         ++ pystr.dq ++ ") to list"))
  | _ =>
      Raises (TypeError ("unsupported operand type(s) for +: '" ++ type_name v
                         ++ "' and 'str'"))
  end.

(** A replacement field of an f-string: [format(v, '')], which is [str(v)]. *)
Definition format (E : Env) (v : json) : string :=
  match v with
  | JStr s => s
  | JNull => "None"
  | JBool true => "True"
  | JBool false => "False"
  | JInt z => pretty z
  | JFloat _ | JArr _ | JObj _ => py_repr E v
  end.

End py.

(** ** [backend/gemini.py] *)

Module gemini.

Import pystr.

Definition quoted (s : string) : string := dq ++ s ++ dq.

(** [json.loads(content)] inside a coroutine. *)
Definition loads (E : Env) (content : string) : M json :=
  match json_loads E content with
  | inr v => mret v
  | inl msg => raise (JSONDecodeError msg)
  end.

(** The instruction sent with the page images. *)
Definition prompt_text : string :=
  unlines [
    "";
    "    Analyze the following PDF document.";
    "    Extract the following information:";
    "    - **Title:** The main title of the paper.";
    "    - **Abstract:** The abstract of the paper.";
    "    - **Sections:** A list of sections, where each section has:";
    "        - `title`: The section title.";
    "        - `content`: A summary of the section's text.";
    "        - (Optional) `tables`: If tables are present in the section, describe them or extract key data.";
    "        - (Optional) `figures`: If figures are present, describe them.";
    "    - **References:** A list of references.";
    "";
    "    Output the extracted information as a JSON object with the following schema:";
    "    {";
    "        " ++ quoted "title" ++ ": " ++ quoted "..." ++ ",";
    "        " ++ quoted "abstract" ++ ": " ++ quoted "..." ++ ",";
    "        " ++ quoted "sections" ++ ": [";
    "            {" ++ quoted "title" ++ ": " ++ quoted "..." ++ ", "
      ++ quoted "content" ++ ": " ++ quoted "..." ++ ", "
      ++ quoted "tables" ++ ": [...], " ++ quoted "figures" ++ ": [...]},";
    "            ...";
    "        ],";
    "        " ++ quoted "references" ++ ": [...]";
    "    }";
    "";
    "    If any element is not found, use an empty string or empty list as appropriate.";
    "    Ensure high accuracy, especially for tables and key results.";
    "    "
  ].

(** One page image as a message part. *)
Definition image_part (E : Env) (img_bytes : list Byte.byte) : content_part :=
  ImageUrlPart ("data:image/png;base64," ++ b64encode E img_bytes) "high".

(** The page loop of the PDF to image conversion, with its [try]. *)
Definition convert_pages (E : Env) (file_content : list Byte.byte)
    : M (list content_part) :=
  match fitz_render E file_content with
  | inr pages => mret (map (image_part E) pages)
  | inl e => raise (ValueError ("Error converting PDF pages to images: " ++ e))
  end.

Definition extraction_request (messages_content : list content_part) : ChatRequest :=
  {| model := "gpt-4o";
     user_content := ContentParts messages_content;
     response_format := Some "json_object";
     temperature := "0.0" |}.

(** The body of the second [try] of [process_pdf_document]. *)
Definition extract_and_store (E : Env) (doc_id filename : string)
    (messages_content : list content_part) : M models.ProcessedDocument :=
  content ← chat_completion E (extraction_request messages_content);
  extracted_metadata ← loads E content;
  match extracted_metadata with
  | JObj fields =>
      processed_doc ← lift (models.ProcessedDocument_init (pydantic_coerce E)
                              doc_id filename
                              (dict_get fields "text_content" (JStr ""))
                              fields);
      store_setitem doc_id processed_doc;;
      mret processed_doc
  | v => raise (no_attribute v "get")
  end.

Definition process_pdf_document (E : Env) (file_content : list Byte.byte)
    (filename : string) : M models.ProcessedDocument :=
  match filetype_guess E file_content with
  | None => raise (ValueError "Could not determine file type from content.")
  | Some mime =>
      if negb (String.eqb mime "application/pdf") then
        raise (ValueError ("Unsupported file type: " ++ mime ++ ". Only PDFs are allowed."))
      else
        let doc_id := uuid4 E in
        image_parts ← convert_pages E file_content;
        let messages_content := TextPart prompt_text :: image_parts in
        try_except
          (extract_and_store E doc_id filename messages_content)
          (fun e =>
             print ("Error processing PDF with OpenAI: " ++ exn_str e);;
             raise e)
  end.

Definition document_not_found (document_id : string) : exn :=
  ValueError ("Document with ID " ++ document_id ++ " not found.").

Definition section_not_found (section_title : string) : exn :=
  ValueError ("Section '" ++ section_title ++ "' not found in document.").

(** The guard and the lookup that open every query coroutine. *)
Definition require_document (document_id : string) : M models.ProcessedDocument :=
  present ← store_contains document_id;
  if negb present then raise (document_not_found document_id)
  else store_getitem document_id.

Definition query_prompt (document_content question : string) : string :=
  unlines [
    "";
    "    You are an AI assistant specialized in analyzing documents.";
    "    Based on the following document content, answer the user's question.";
    "    If the answer is not explicitly stated in the document, state that you cannot find the information.";
    "";
    "    Document Content (structured JSON):";
    "    " ++ document_content;
    "";
    "    User's Question: " ++ question;
    "";
    "    Answer:";
    "    "
  ].

Definition query_document (E : Env) (document_id question : string) : M string :=
  doc ← require_document document_id;
  let document_content := json_dumps E (JObj (models.metadata doc)) in
  let prompt := query_prompt document_content question in
  content ← chat_completion E
    {| model := "gpt-4o"; user_content := ContentText prompt;
       response_format := None; temperature := "0.2" |};
  mret (strip content).

(** The loop of the section branch: it stops at the first section whose
    lowered title equals the lowered [section_title] and yields its
    content; [None] when the loop ends with [found_section] still false. *)
Fixpoint find_section (sections : list json) (section_title : string)
    : outcome (option json) :=
  match sections with
  | [] => Returns None
  | section :: rest =>
      title ← py.getitem section "title";
      lowered ← py.lower title;
      if String.eqb lowered (lower section_title) then
        content ← py.getitem section "content";
        Returns (Some content)
      else find_section rest section_title
  end.

(** The loop of the whole-document branch, from the text built so far. *)
Fixpoint append_sections (E : Env) (content_to_summarize : string)
    (sections : list json) : outcome string :=
  match sections with
  | [] => Returns content_to_summarize
  | section :: rest =>
      title ← py.getitem section "title";
      content ← py.getitem section "content";
      append_sections E
        (content_to_summarize ++ py.format E title ++ ":" ++ nl
           ++ py.format E content ++ nl ++ nl)
        rest
  end.

(** [if section_title:] on an [Optional[str]]. *)
Definition given (section_title : option string) : option string :=
  match section_title with
  | Some t => if truthy t then Some t else None
  | None => None
  end.

(** The value of [content_to_summarize] when the [if]/[else] is left. *)
Definition content_to_summarize (E : Env) (doc : models.ProcessedDocument)
    (section_title : option string) : outcome json :=
  match given section_title with
  | Some t =>
      sections ← py.iter (dict_get (models.metadata doc) "sections" (JArr []));
      found ← find_section sections t;
      match found with
      | Some content => Returns content
      | None => Raises (section_not_found t)
      end
  | None =>
      abstract ← py.add_str (dict_get (models.metadata doc) "abstract" (JStr ""))
                            (nl ++ nl);
      sections ← py.iter (dict_get (models.metadata doc) "sections" (JArr []));
      text ← append_sections E ("" ++ abstract) sections;
      Returns (JStr text)
  end.

Definition no_content : string := "No content found to summarize.".

Definition summary_prompt (granularity content : string) : string :=
  unlines [
    "";
    "    Summarize the following content.";
    "    Granularity: " ++ granularity ++ ".";
    "";
    "    Content:";
    "    " ++ content;
    "";
    "    Summary:";
    "    "
  ].

Definition summary_request (E : Env) (granularity : string) (content : json)
    : ChatRequest :=
  {| model := "gpt-4o";
     user_content := ContentText (summary_prompt granularity (py.format E content));
     response_format := None;
     temperature := "0.3" |}.

(** The rest of the coroutine once [content_to_summarize] has its value:
    the emptiness test, the prompt and the call. *)
Definition summarize_content (E : Env) (granularity : string) (content : json)
    : M string :=
  stripped ← lift (py.strip content);
  if negb (truthy stripped) then mret no_content
  else
    response ← chat_completion E (summary_request E granularity content);
    mret (strip response).

Definition summarize_document_section (E : Env) (document_id : string)
    (section_title : option string) (granularity : string) : M string :=
  doc ← require_document document_id;
  content ← lift (content_to_summarize E doc section_title);
  summarize_content E granularity content.

Definition extraction_prompt (document_content query : string) : string :=
  unlines [
    "";
    "    From the following document content, extract specific evaluation results or key data points related to the query: "
      ++ quoted query ++ ".";
    "    Focus on numerical values, metrics, and their descriptions.";
    "    Output the extracted information as a JSON object with relevant key-value pairs.";
    "    For example, if the query is " ++ quoted "accuracy and F1-score"
      ++ ", the output could be:";
    "    {" ++ quoted "accuracy" ++ ": " ++ quoted "95.2%" ++ ", "
      ++ quoted "f1_score" ++ ": " ++ quoted "0.89" ++ "}";
    "    If the query is " ++ quoted "key findings" ++ ", it could be:";
    "    {" ++ quoted "finding_1" ++ ": " ++ quoted "..." ++ ", "
      ++ quoted "finding_2" ++ ": " ++ quoted "..." ++ "}";
    "    If no relevant information is found, return an empty JSON object: {}.";
    "";
    "    Document Content (structured JSON):";
    "    " ++ document_content;
    "";
    "    Extraction Query: " ++ query;
    "";
    "    Extracted Results (JSON):";
    "    "
  ].

Definition results_request (E : Env) (doc : models.ProcessedDocument)
    (query : string) : ChatRequest :=
  {| model := "gpt-4o";
     user_content :=
       ContentText (extraction_prompt (json_dumps E (JObj (models.metadata doc))) query);
     response_format := Some "json_object";
     temperature := "0.0" |}.

(** The object returned when the response is not valid JSON. *)
Definition parse_error_object : json :=
  JObj [("error", JStr "Could not parse extracted results as JSON.")].

Definition extract_evaluation_results (E : Env) (document_id query : string)
    : M json :=
  doc ← require_document document_id;
  content ← chat_completion E (results_request E doc query);
  try_except
    (loads E content)
    (fun e =>
       match e with
       | JSONDecodeError _ =>
           print ("Warning: OpenAI did not return valid JSON for extraction. Raw response: "
                  ++ content);;
           mret parse_error_object
       | _ => raise e
       end).

(** The record appended to [papers_data] for one result. *)
Definition paper_record (result : ArxivResult) : json :=
  JObj [("title", JStr (result_title result));
        ("authors", JArr (map JStr (result_authors result)));
        ("summary", JStr (result_summary result));
        ("url", JStr (result_entry_id result));
        ("published", JStr (result_published_isoformat result))].

(** The body of the [try] of [arxiv_lookup_tool]. *)
Definition search_papers (E : Env) (query : string) (max_results : Z)
    : M (list json) :=
  let '(results, failure) := arxiv_results E query max_results in
  let papers_data := map paper_record results in
  match failure with
  | None => mret papers_data
  | Some e => raise (ArxivError e)
  end.

Definition arxiv_lookup_tool (E : Env) (query : string) (max_results : Z)
    : M (list json) :=
  print ("Simulating Arxiv lookup for: '" ++ query ++ "' with "
         ++ pretty max_results ++ " results.");;
  try_except
    (search_papers E query max_results)
    (fun e =>
       print ("Error calling Arxiv API: " ++ exn_str e);;
       mret []).

End gemini.

(** ** A concrete environment

    A small world used to run the model on explicit inputs: a sniffer that
    knows the PDF and PNG magic numbers, a one-page rasterizer, and a JSON
    decoder given by a table of the few texts the examples use. *)

Module sample.

Import gemini.

Definition bytes_of (s : string) : list Byte.byte := list_byte_of_string s.

Definition pdf_bytes : list Byte.byte := bytes_of "%PDF-1.7 sample".
Definition text_bytes : list Byte.byte := bytes_of "plain text, not a PDF".
Definition png_bytes : list Byte.byte := Byte.x89 :: bytes_of "PNG image".

Definition sniff (content : list Byte.byte) : option string :=
  match content with
  | Byte.x25 :: Byte.x50 :: Byte.x44 :: Byte.x46 :: _ => Some "application/pdf"
  | Byte.x89 :: Byte.x50 :: Byte.x4e :: Byte.x47 :: _ => Some "image/png"
  | _ => None
  end.

Definition intro_section : json :=
  JObj [("title", JStr "Introduction"); ("content", JStr "We study caching.")].

Definition results_section : json :=
  JObj [("title", JStr "Results"); ("content", JStr "Accuracy is 95.2%.")].

Definition blank_section : json :=
  JObj [("title", JStr "Notes"); ("content", JStr "  ")].

Definition blank_metadata : list (string * json) :=
  [("sections", JArr [blank_section])].

Definition full_metadata : list (string * json) :=
  [("title", JStr "A Paper");
   ("abstract", JStr "An abstract.");
   ("sections", JArr [intro_section; results_section]);
   ("references", JArr [JStr "[1] A. Author"])].

(** The JSON text of [key: value] with a string value. *)
Definition member (key value : string) : string :=
  quoted key ++ ": " ++ quoted value.

Definition full_text : string :=
  "{" ++ member "title" "A Paper" ++ ", " ++ member "abstract" "An abstract." ++ ", "
  ++ quoted "sections" ++ ": [{" ++ member "title" "Introduction" ++ ", "
  ++ member "content" "We study caching." ++ "}, {" ++ member "title" "Results"
  ++ ", " ++ member "content" "Accuracy is 95.2%." ++ "}], "
  ++ quoted "references" ++ ": [" ++ quoted "[1] A. Author" ++ "]}".
Definition only_title_text : string := "{" ++ member "title" "A Paper" ++ "}".
Definition null_text_content : string := "{" ++ quoted "text_content" ++ ": null}".
Definition array_text : string := "[1, 2]".
Definition broken_text : string := "{" ++ quoted "accuracy" ++ ": ".

(** The decoder on the texts above; anything else is not valid JSON. *)
Definition decode (text : string) : string + json :=
  if String.eqb text full_text then inr (JObj full_metadata)
  else if String.eqb text only_title_text then inr (JObj [("title", JStr "A Paper")])
  else if String.eqb text null_text_content then inr (JObj [("text_content", JNull)])
  else if String.eqb text array_text then inr (JArr [JInt 1; JInt 2])
  else if String.eqb text "{}" then inr (JObj [])
  else inl "Expecting value: line 1 column 1 (char 0)".

Definition paper (n : string) : ArxivResult :=
  {| result_title := "Paper " ++ n;
     result_authors := ["A. Author"; "B. Writer"];
     result_summary := "Summary " ++ n;
     result_entry_id := "http://arxiv.org/abs/2401.0000" ++ n;
     result_published_isoformat := "2024-01-0" ++ n ++ "T00:00:00+00:00" |}.

(** The environment in which the capability answers [reply] to every
    request and the paper search yields [found] and then [failure]. *)
Definition env (fresh_id : string) (reply : string + string)
    (found : list ArxivResult) (failure : option string) : Env :=
  {| filetype_guess := sniff;
     uuid4 := fresh_id;
     fitz_render := fun _ => inr [[Byte.x89; Byte.x50; Byte.x4e; Byte.x47]];
     b64encode := fun _ => "iVBORw==";
     chat_create := fun _ => reply;
     json_loads := decode;
     json_dumps := fun _ => "{}";
     py_repr := fun _ => "[]";
     pydantic_coerce := fun _ => None;
     arxiv_results := fun _ _ => (found, failure) |}.

Definition stored (doc_id : string) (fields : list (string * json))
    : models.ProcessedDocument :=
  {| models.id := doc_id; models.filename := "paper.pdf";
     models.extracted_text := ""; models.metadata := fields |}.

Definition empty_world : World :=
  {| documents_store := ∅; chat_calls := []; stdout := [] |}.

(** A world whose store holds one document. *)
Definition world_with (doc : models.ProcessedDocument) : World :=
  {| documents_store := {[ models.id doc := doc ]}; chat_calls := []; stdout := [] |}.

End sample.

(** ** The request and response classes of [backend/models.py] *)

Module api_models.

Module DocumentUploadResponse.
Record t : Type := { filename : string; message : string; document_id : string }.
End DocumentUploadResponse.

Module QuestionRequest.
Record t : Type := { document_id : string; question : string }.
End QuestionRequest.

Module AnswerResponse.
Record t : Type := { document_id : string; question : string; answer : string }.
End AnswerResponse.

(** [granularity: Optional[str] = "overview"]: a request may carry
    [null] for it. *)
Module SummarizeRequest.
Record t : Type := {
  document_id : string;
  section_title : option string;
  granularity : option string;
}.
End SummarizeRequest.

Module SummaryResponse.
Record t : Type := {
  document_id : string;
  section_title : option string;
  summary : string;
}.
End SummaryResponse.

Module ExtractionRequest.
Record t : Type := { document_id : string; query : string }.
End ExtractionRequest.

Module ExtractionResponse.
Record t : Type := {
  document_id : string;
  query : string;
  extracted_data : list (string * json);
}.
End ExtractionResponse.

Module ArxivSearchRequest.
Record t : Type := { query : string; max_results : Z }.
End ArxivSearchRequest.

Module ArxivPaper.
Record t : Type := {
  title : string;
  authors : list string;
  summary : string;
  url : string;
  published : string;
}.
End ArxivPaper.

Module ArxivSearchResponse.
Record t : Type := { query : string; papers : list ArxivPaper.t }.
End ArxivSearchResponse.

(** What the installed pydantic does with a value that is not of the
    declared type where the releases differ: a scalar for a field declared
    [str], and a [str] or [list] for a field declared as a [dict] or as a
    model (pydantic 1 tries [dict(v)], pydantic 2 rejects). *)
Record Coercions : Type := {
  coerce_str : json -> option string;
  coerce_dict : json -> option (list (string * json));
}.

(** Validation against a field declared [Dict[str, Any]], or the fields
    from which a model is built.  Every release accepts a [dict] as it is
    and rejects [None], a [bool] and a number. *)
Definition validate_dict (C : Coercions) (field : string) (v : json)
    : outcome (list (string * json)) :=
  match v with
  | JObj fields => Returns fields
  | JNull | JBool _ | JInt _ | JFloat _ => Raises (ValidationError field)
  | JStr _ | JArr _ =>
      match coerce_dict C v with
      | Some fields => Returns fields
      | None => Raises (ValidationError field)
      end
  end.

(** A required field declared [str]. *)
Definition required_str (C : Coercions) (fields : list (string * json))
    (field : string) : outcome string :=
  match dict_lookup field fields with
  | Some v => models.validate_str (coerce_str C) field v
  | None => Raises (ValidationError field)
  end.

Fixpoint validate_strs (C : Coercions) (field : string) (items : list json)
    : outcome (list string) :=
  match items with
  | [] => Returns []
  | v :: rest =>
      s ← models.validate_str (coerce_str C) field v;
      others ← validate_strs C field rest;
      Returns (s :: others)
  end.

(** A required field declared [List[str]]: of the values JSON decodes
    to, only a [list] is accepted. *)
Definition required_strs (C : Coercions) (fields : list (string * json))
    (field : string) : outcome (list string) :=
  match dict_lookup field fields with
  | Some (JArr items) => validate_strs C field items
  | _ => Raises (ValidationError field)
  end.

(** An [ArxivPaper] built from one element of [papers]; keys other than
    the five fields are ignored.  The first field that fails stands for
    the error. *)
Definition ArxivPaper_validate (C : Coercions) (v : json) : outcome ArxivPaper.t :=
  fields ← validate_dict C "papers" v;
  title ← required_str C fields "title";
  authors ← required_strs C fields "authors";
  summary ← required_str C fields "summary";
  url ← required_str C fields "url";
  published ← required_str C fields "published";
  Returns {| ArxivPaper.title := title; ArxivPaper.authors := authors;
             ArxivPaper.summary := summary; ArxivPaper.url := url;
             ArxivPaper.published := published |}.

Fixpoint validate_papers (C : Coercions) (papers : list json)
    : outcome (list ArxivPaper.t) :=
  match papers with
  | [] => Returns []
  | v :: rest =>
      paper ← ArxivPaper_validate C v;
      others ← validate_papers C rest;
      Returns (paper :: others)
  end.

(** [ArxivSearchResponse(query=query, papers=papers)] with [papers] a
    [list] of [dict]s. *)
Definition ArxivSearchResponse_init (C : Coercions) (query : string)
    (papers : list json) : outcome ArxivSearchResponse.t :=
  validated ← validate_papers C papers;
  Returns {| ArxivSearchResponse.query := query;
             ArxivSearchResponse.papers := validated |}.

(** [ExtractionResponse(document_id=.., query=.., extracted_data=..)]. *)
Definition ExtractionResponse_init (C : Coercions) (document_id query : string)
    (extracted_data : json) : outcome ExtractionResponse.t :=
  data ← validate_dict C "extracted_data" extracted_data;
  Returns {| ExtractionResponse.document_id := document_id;
             ExtractionResponse.query := query;
             ExtractionResponse.extracted_data := data |}.

End api_models.

(** ** [backend/main.py] *)

Module main.

Import api_models.

(** [s.endswith(suffix)]. *)
Fixpoint endswith (s suffix : string) : bool :=
  String.eqb s suffix
  || match s with
     | EmptyString => false
     | String _ rest => endswith rest suffix
     end.

(** [isinstance(e, ValueError)]: [json.JSONDecodeError] and pydantic's
    [ValidationError] are subclasses of [ValueError]. *)
Definition is_ValueError (e : exn) : bool :=
  match e with
  | ValueError _ | JSONDecodeError _ | ValidationError _ => true
  | KeyError _ | TypeError _ | AttributeError _ | APIError _ | ArxivError _ => false
  end.

(** How a handler ends: with its response, with the [HTTPException] it
    raises, or with an exception nothing in the handler catches. *)
Inductive reply (A : Type) : Type :=
| Responds (body : A)
| HTTPException (status_code : Z) (detail : string)
| Unhandled (e : exn).
Arguments Responds {A} body.
Arguments HTTPException {A} status_code detail.
Arguments Unhandled {A} e.

Definition H (A : Type) : Type := World -> reply A * World.

(** The [try] that wraps the body of a handler:
    [except ValueError as e] raises [HTTPException(client_status, str(e))],
    [except Exception as e] raises [HTTPException(500, prefix + str(e))]. *)
Definition guarded {A : Type} (client_status : Z) (prefix : string) (body : M A)
    : H A := fun w =>
  match body w with
  | (Returns a, w') => (Responds a, w')
  | (Raises e, w') =>
      if is_ValueError e then (HTTPException client_status (exn_str e), w')
      else (HTTPException 500 (prefix ++ exn_str e), w')
  end.

(** An uploaded file: its name, which the framework types [Optional[str]],
    and the bytes [await file.read()] gives. *)
Record UploadFile : Type := {
  upload_filename : option string;
  upload_content : list Byte.byte;
}.

Definition upload_document (E : Env) (file : UploadFile)
    : H DocumentUploadResponse.t := fun w =>
  match upload_filename file with
  | None => (Unhandled (no_attribute JNull "lower"), w)
  | Some name =>
      if negb (endswith (pystr.lower name) ".pdf") then
        (HTTPException 400 "Only PDF files are allowed.", w)
      else
        let file_content := upload_content file in
        guarded 400 "Failed to process document: "
          (processed_doc ← gemini.process_pdf_document E file_content name;
           mret {| DocumentUploadResponse.filename := models.filename processed_doc;
                   DocumentUploadResponse.message :=
                     "Document uploaded and processed successfully.";
                   DocumentUploadResponse.document_id := models.id processed_doc |})
          w
  end.

Definition get_document_details (document_id : string)
    : H models.ProcessedDocument := fun w =>
  match store_contains document_id w with
  | (Returns true, w') =>
      match store_getitem document_id w' with
      | (Returns doc, w'') => (Responds doc, w'')
      | (Raises e, w'') => (Unhandled e, w'')
      end
  | (Returns false, w') => (HTTPException 404 "Document not found.", w')
  | (Raises e, w') => (Unhandled e, w')
  end.

Definition query_document_endpoint (E : Env) (request : QuestionRequest.t)
    : H AnswerResponse.t :=
  guarded 404 "Failed to answer question: "
    (answer ← gemini.query_document E (QuestionRequest.document_id request)
                (QuestionRequest.question request);
     mret {| AnswerResponse.document_id := QuestionRequest.document_id request;
             AnswerResponse.question := QuestionRequest.question request;
             AnswerResponse.answer := answer |}).

(** The text an f-string puts for an [Optional[str]]: [None] prints as
    its name. *)
Definition format_optional (s : option string) : string :=
  match s with
  | Some text => text
  | None => "None"
  end.

(** [request.granularity] reaches the coroutine as it is; the coroutine
    only formats it into the prompt, which is what [format_optional]
    gives. *)
Definition summarize_document_endpoint (E : Env) (request : SummarizeRequest.t)
    : H SummaryResponse.t :=
  guarded 404 "Failed to summarize document: "
    (summary ← gemini.summarize_document_section E
                 (SummarizeRequest.document_id request)
                 (SummarizeRequest.section_title request)
                 (format_optional (SummarizeRequest.granularity request));
     mret {| SummaryResponse.document_id := SummarizeRequest.document_id request;
             SummaryResponse.section_title := SummarizeRequest.section_title request;
             SummaryResponse.summary := summary |}).

Definition extract_data_endpoint (E : Env) (C : Coercions)
    (request : ExtractionRequest.t) : H ExtractionResponse.t :=
  guarded 404 "Failed to extract data: "
    (extracted_data ← gemini.extract_evaluation_results E
                        (ExtractionRequest.document_id request)
                        (ExtractionRequest.query request);
     lift (ExtractionResponse_init C (ExtractionRequest.document_id request)
             (ExtractionRequest.query request) extracted_data)).

(** The only clause of this handler is [except Exception]. *)
Definition arxiv_search_endpoint (E : Env) (C : Coercions)
    (request : ArxivSearchRequest.t) : H ArxivSearchResponse.t := fun w =>
  match (papers ← gemini.arxiv_lookup_tool E (ArxivSearchRequest.query request)
                    (ArxivSearchRequest.max_results request);
         lift (ArxivSearchResponse_init C (ArxivSearchRequest.query request) papers)) w
  with
  | (Returns response, w') => (Responds response, w')
  | (Raises e, w') =>
      (HTTPException 500 ("Failed to perform Arxiv search: " ++ exn_str e), w')
  end.

(** *** Requests one after the other *)

(** One request to the application. *)
Inductive request : Type :=
| UploadDocument (E : Env) (file : UploadFile)
| GetDocumentDetails (document_id : string)
| QueryDocument (E : Env) (r : QuestionRequest.t)
| SummarizeDocument (E : Env) (r : SummarizeRequest.t)
| ExtractData (E : Env) (C : Coercions) (r : ExtractionRequest.t)
| ArxivSearch (E : Env) (C : Coercions) (r : ArxivSearchRequest.t).

(** The world after the handler of one request has run; each request
    comes with what the outside world answers while it is served. *)
Definition serve (r : request) (w : World) : World :=
  match r with
  | UploadDocument E file => (upload_document E file w).2
  | GetDocumentDetails document_id => (get_document_details document_id w).2
  | QueryDocument E q => (query_document_endpoint E q w).2
  | SummarizeDocument E q => (summarize_document_endpoint E q w).2
  | ExtractData E C q => (extract_data_endpoint E C q w).2
  | ArxivSearch E C q => (arxiv_search_endpoint E C q w).2
  end.

Definition serve_all (requests : list request) (w : World) : World :=
  fold_left (fun w r => serve r w) requests w.

(** The identifier an upload generates, if the request is one. *)
Definition generated_id (r : request) : option string :=
  match r with
  | UploadDocument E _ => Some (uuid4 E)
  | _ => None
  end.

End main.

(** * Properties *)

(** ** Python strings: whitespace and [strip] *)

Section strings.

Import pystr.

Lemma rstrip_all_space (s : string) : all_space s = true → rstrip s = "".
Proof.
  induction s as [|c r IH]; simpl; [done|].
  intros [Hc Hr]%andb_prop. by rewrite (IH Hr), Hc.
Qed.

Lemma all_space_rstrip (s : string) : all_space (rstrip s) = true → all_space s = true.
Proof.
  induction s as [|c r IH]; simpl; [done|].
  destruct (rstrip r) as [|c' r'] eqn:Hr.
  - destruct (isspace c) eqn:Hc; simpl; [intros _; by rewrite IH | by rewrite Hc].
  - simpl. intros [Hc H]%andb_prop. rewrite Hc. by apply IH.
Qed.

Lemma lstrip_empty (s : string) : lstrip s = "" → all_space s = true.
Proof.
  induction s as [|c r IH]; simpl; [done|].
  destruct (isspace c); [exact IH | discriminate].
Qed.

(** A string strips to the empty string exactly when it is empty or made
    of whitespace only. *)
Lemma strip_empty_iff (s : string) : strip s = "" ↔ all_space s = true.
Proof.
  unfold strip. split.
  - intros H. apply all_space_rstrip, lstrip_empty, H.
  - intros H. by rewrite (rstrip_all_space _ H).
Qed.

Lemma lower_char_idempotent (c : ascii) : lower_char (lower_char c) = lower_char c.
Proof.
  destruct c as [[] [] [] [] [] [] [] []]; vm_compute; reflexivity.
Qed.

Lemma lower_idempotent (s : string) : lower (lower s) = lower s.
Proof.
  induction s as [|c r IH]; simpl; [done|].
  by rewrite lower_char_idempotent, IH.
Qed.

End strings.

(** ** Running a coroutine *)

Section running.

Context {A B : Type}.

Lemma bind_returns (m : M A) (k : A → M B) (w w' : World) (a : A) :
  m w = (Returns a, w') → (m ≫= k) w = k a w'.
Proof. intros H. unfold mbind, M_bind. by rewrite H. Qed.

Lemma bind_raises (m : M A) (k : A → M B) (w w' : World) (e : exn) :
  m w = (Raises e, w') → (m ≫= k) w = (Raises e, w').
Proof. intros H. unfold mbind, M_bind. by rewrite H. Qed.

End running.

Section guard.

Import gemini.

Lemma require_document_absent (w : World) (document_id : string) :
  documents_store w !! document_id = None →
  require_document document_id w = (Raises (document_not_found document_id), w).
Proof.
  intros H. unfold require_document, store_contains, mbind, M_bind, raise.
  rewrite bool_decide_eq_false_2; [done|].
  rewrite H. by intros [? ?].
Qed.

Lemma require_document_present (w : World) (document_id : string)
    (doc : models.ProcessedDocument) :
  documents_store w !! document_id = Some doc →
  require_document document_id w = (Returns doc, w).
Proof.
  intros H. unfold require_document, store_contains, store_getitem, mbind, M_bind.
  rewrite bool_decide_eq_true_2 by (rewrite H; eauto).
  simpl. by rewrite H.
Qed.

End guard.

(** ** Which exceptions can leave a coroutine *)

(** The exceptions Python raises for an operand of the wrong shape. *)
Definition dynamic_error (e : exn) : Prop :=
  match e with
  | TypeError _ | KeyError _ | AttributeError _ => True
  | _ => False
  end.

Section exceptions.

Import gemini.

Lemma getitem_raises v key e : py.getitem v key = Raises e → dynamic_error e.
Proof.
  destruct v; simpl; try (intros [= <-]; exact I).
  destruct (dict_lookup key fields); intros [= <-]; exact I.
Qed.

Lemma lower_raises v e : py.lower v = Raises e → dynamic_error e.
Proof. destruct v; simpl; intros [= <-]; exact I. Qed.

Lemma strip_raises v e : py.strip v = Raises e → dynamic_error e.
Proof. destruct v; simpl; intros [= <-]; exact I. Qed.

Lemma add_str_raises v s e : py.add_str v s = Raises e → dynamic_error e.
Proof. destruct v; simpl; intros [= <-]; exact I. Qed.

Lemma iter_raises v e : py.iter v = Raises e → dynamic_error e.
Proof. destruct v; simpl; intros [= <-]; exact I. Qed.

Lemma find_section_raises sections section_title e :
  find_section sections section_title = Raises e → dynamic_error e.
Proof.
  induction sections as [|section rest IH]; simpl; [discriminate|].
  unfold mbind, outcome_bind.
  destruct (py.getitem section "title") as [title|e1] eqn:Ht;
    [|intros [= <-]; eauto using getitem_raises].
  destruct (py.lower title) as [lowered|e2] eqn:Hl;
    [|intros [= <-]; eauto using lower_raises].
  destruct (String.eqb lowered (pystr.lower section_title)); [|exact IH].
  destruct (py.getitem section "content") as [content|e3] eqn:Hc;
    [discriminate | intros [= <-]; eauto using getitem_raises].
Qed.

Lemma append_sections_raises E acc sections e :
  append_sections E acc sections = Raises e → dynamic_error e.
Proof.
  revert acc. induction sections as [|section rest IH]; intros acc; simpl;
    [discriminate|].
  unfold mbind, outcome_bind.
  destruct (py.getitem section "title") as [title|e1] eqn:Ht;
    [|intros [= <-]; eauto using getitem_raises].
  destruct (py.getitem section "content") as [content|e3] eqn:Hc;
    [apply IH | intros [= <-]; eauto using getitem_raises].
Qed.

(** Assembling the content fails only on a value of the wrong shape or,
    in the section branch, with the section-not-found error. *)
Lemma content_to_summarize_raises E doc section_title e :
  content_to_summarize E doc section_title = Raises e →
  dynamic_error e ∨ ∃ t, given section_title = Some t ∧ e = section_not_found t.
Proof.
  unfold content_to_summarize, mbind, outcome_bind.
  destruct (given section_title) as [t|].
  - destruct (py.iter _) as [sections|e1] eqn:Hi;
      [|intros [= <-]; eauto using iter_raises].
    destruct (find_section sections t) as [[content|]|e2] eqn:Hf.
    + discriminate.
    + intros [= <-]. right. eauto.
    + intros [= <-]. eauto using find_section_raises.
  - destruct (py.add_str _ _) as [abstract|e1] eqn:Ha;
      [|intros [= <-]; eauto using add_str_raises].
    destruct (py.iter _) as [sections|e2] eqn:Hi;
      [|intros [= <-]; eauto using iter_raises].
    destruct (append_sections E _ sections) as [text|e3] eqn:Hs;
      [discriminate | intros [= <-]; eauto using append_sections_raises].
Qed.

Lemma document_not_found_not_dynamic document_id :
  ¬ dynamic_error (document_not_found document_id).
Proof. exact (fun H => H). Qed.

Lemma section_not_found_not_dynamic t : ¬ dynamic_error (section_not_found t).
Proof. exact (fun H => H). Qed.

(** The two messages differ in their first character. *)
Lemma section_not_found_ne_document_not_found t document_id :
  section_not_found t ≠ document_not_found document_id.
Proof. unfold section_not_found, document_not_found. simpl. intros [=]. Qed.

(** Everything that can leave [summarize_document_section] on a stored
    document. *)
Lemma summarize_stored_raises E w document_id doc section_title granularity e :
  documents_store w !! document_id = Some doc →
  (summarize_document_section E document_id section_title granularity w).1 = Raises e →
  dynamic_error e
  ∨ (∃ t, given section_title = Some t ∧ e = section_not_found t)
  ∨ ∃ msg, e = APIError msg.
Proof.
  intros Hdoc. unfold summarize_document_section.
  rewrite (bind_returns _ _ _ _ _ (require_document_present _ _ _ Hdoc)).
  unfold summarize_content, mbind, M_bind, lift, mret, M_ret.
  destruct (content_to_summarize E doc section_title) as [content|e1] eqn:Hc.
  - destruct (py.strip content) as [stripped|e2] eqn:Hs.
    + destruct (negb (pystr.truthy stripped)); simpl; [discriminate|].
      unfold chat_completion. destruct (chat_create E _); simpl;
        [intros [= <-]; eauto | discriminate].
    + simpl. intros [= <-]. eauto using strip_raises.
  - simpl. intros [= <-].
    destruct (content_to_summarize_raises _ _ _ _ Hc); eauto.
Qed.

End exceptions.

(** ** The shared precondition of the query coroutines *)

Section queries.

Import gemini.

(** C2.  For an identifier that is not in the store, [query_document],
    [summarize_document_section] and [extract_evaluation_results] each
    raise the document-not-found error and leave the world as it was: in
    particular no request is added to [chat_calls], so the generation
    capability is not called.  For an identifier that is in the store,
    none of the three raises a document-not-found error, for any
    identifier. *)
Theorem queries_fail_exactly_on_unknown_document
    (E : Env) (w : World) (document_id question query granularity : string)
    (section_title : option string) :
  (documents_store w !! document_id = None →
     query_document E document_id question w
       = (Raises (document_not_found document_id), w)
     ∧ summarize_document_section E document_id section_title granularity w
       = (Raises (document_not_found document_id), w)
     ∧ extract_evaluation_results E document_id query w
       = (Raises (document_not_found document_id), w))
  ∧ (is_Some (documents_store w !! document_id) →
     ∀ any_id : string,
       (query_document E document_id question w).1
         ≠ Raises (document_not_found any_id)
       ∧ (summarize_document_section E document_id section_title granularity w).1
         ≠ Raises (document_not_found any_id)
       ∧ (extract_evaluation_results E document_id query w).1
         ≠ Raises (document_not_found any_id)).
Proof.
  split.
  - intros Habsent.
    pose proof (require_document_absent _ _ Habsent) as Hreq.
    unfold query_document, summarize_document_section, extract_evaluation_results.
    by rewrite !(bind_raises _ _ _ _ _ Hreq).
  - intros [doc Hdoc] any_id.
    pose proof (require_document_present _ _ _ Hdoc) as Hreq.
    repeat split.
    + unfold query_document. rewrite (bind_returns _ _ _ _ _ Hreq).
      unfold mbind, M_bind, chat_completion.
      destruct (chat_create E _); simpl; discriminate.
    + intros Hraise.
      destruct (summarize_stored_raises _ _ _ _ _ _ _ Hdoc Hraise)
        as [Hdyn | [(t & _ & Ht) | [msg Hmsg]]].
      * exact (document_not_found_not_dynamic _ Hdyn).
      * symmetry in Ht. exact (section_not_found_ne_document_not_found _ _ Ht).
      * discriminate Hmsg.
    + unfold extract_evaluation_results. rewrite (bind_returns _ _ _ _ _ Hreq).
      unfold mbind, M_bind, chat_completion, try_except, loads.
      destruct (chat_create E _); simpl; [discriminate|].
      destruct (json_loads E _); simpl; discriminate.
Qed.

(** The theorem at work: the identifier [missing] against a store that
    holds only [d], and the identifier [d] itself. *)
Lemma queries_fail_exactly_on_unknown_document_witness :
  let E := sample.env "id-1" (inr "An answer.") [] None in
  let w := sample.world_with (sample.stored "d" sample.full_metadata) in
  (query_document E "missing" "What is measured?" w
     = (Raises (document_not_found "missing"), w)
   ∧ summarize_document_section E "missing" (Some "Results") "overview" w
     = (Raises (document_not_found "missing"), w)
   ∧ extract_evaluation_results E "missing" "accuracy" w
     = (Raises (document_not_found "missing"), w))
  ∧ ((query_document E "d" "What is measured?" w).1
       ≠ Raises (document_not_found "d")
     ∧ (summarize_document_section E "d" (Some "Results") "overview" w).1
       ≠ Raises (document_not_found "d")
     ∧ (extract_evaluation_results E "d" "accuracy" w).1
       ≠ Raises (document_not_found "d")).
Proof.
  split.
  - apply queries_fail_exactly_on_unknown_document. vm_compute. reflexivity.
  - apply queries_fail_exactly_on_unknown_document.
    exists (sample.stored "d" sample.full_metadata). vm_compute. reflexivity.
Defined.

End queries.

(** ** Ingestion: type validation *)

(** The two errors of the type validation: no type could be sniffed, or
    the sniffed type is not PDF. *)
Definition unsupported_format (e : exn) : Prop :=
  e = ValueError "Could not determine file type from content."
  ∨ ∃ mime, mime ≠ "application/pdf"
      ∧ e = ValueError ("Unsupported file type: " ++ mime ++ ". Only PDFs are allowed.").

Section validation.

Import gemini.

(** What the body of the second [try] can raise is never a [ValueError]. *)
Lemma extract_and_store_raises E doc_id filename parts w e :
  (extract_and_store E doc_id filename parts w).1 = Raises e →
  ∀ msg, e ≠ ValueError msg.
Proof.
  unfold extract_and_store, mbind, M_bind, chat_completion, loads, lift, raise,
    mret, M_ret, models.ProcessedDocument_init, models.validate_str.
  destruct (chat_create E _) as [err|content]; simpl;
    [intros [= <-]; discriminate|].
  destruct (json_loads E content) as [msg|v]; simpl;
    [intros [= <-]; discriminate|].
  destruct v; simpl; try (intros [= <-]; discriminate).
  destruct (dict_get fields "text_content" (JStr "")); simpl;
    try (intros [= <-]; discriminate); try discriminate;
    destruct (pydantic_coerce E _); simpl;
    try (intros [= <-]; discriminate); discriminate.
Qed.

(** C3.  Whether ingestion stops with the unsupported-format error is
    decided by the sniffed type of the bytes alone.  When the sniffed type
    is absent or is not PDF, [process_pdf_document] raises that error for
    every filename, and the same error whatever the filename, leaving the
    world untouched.  When the sniffed type is PDF, no filename makes it
    raise that error.  (The handler [upload_document] of [main.py] looks
    at the extension of the filename before it calls the coroutine; that
    boundary is not part of the pipeline.) *)
Theorem ingestion_rejects_by_content (E : Env) (w : World)
    (file_content : list Byte.byte) :
  (filetype_guess E file_content ≠ Some "application/pdf" →
     ∃ e, unsupported_format e
          ∧ ∀ filename, process_pdf_document E file_content filename w = (Raises e, w))
  ∧ (filetype_guess E file_content = Some "application/pdf" →
     ∀ filename e,
       (process_pdf_document E file_content filename w).1 = Raises e →
       ¬ unsupported_format e).
Proof.
  unfold process_pdf_document. split.
  - intros Hkind. destruct (filetype_guess E file_content) as [mime|].
    + assert (mime ≠ "application/pdf") as Hne by congruence.
      apply String.eqb_neq in Hne as Heq. rewrite Heq. simpl.
      eexists. split; [right; eauto | done].
    + eexists. split; [by left | done].
  - intros -> filename e. simpl.
    unfold mbind, M_bind, convert_pages, try_except, raise, print, mret, M_ret.
    destruct (fitz_render E file_content) as [err|pages]; simpl.
    + intros [= <-] [H | (mime & _ & H)]; discriminate H.
    + destruct (extract_and_store E _ _ _ w) as [[doc|e'] w'] eqn:Hrun; simpl;
        [discriminate|].
      intros [= <-] [H | (mime & _ & H)];
        eapply (extract_and_store_raises E); try (rewrite Hrun; reflexivity);
        exact H.
Qed.

(** The theorem at work: plain text uploaded under a [.pdf] name is
    rejected, and a PDF uploaded under a [.txt] name is not. *)
Lemma ingestion_rejects_by_content_witness :
  let E := sample.env "id-1" (inr sample.full_text) [] None in
  (∃ e, unsupported_format e
        ∧ ∀ filename,
            process_pdf_document E sample.text_bytes filename sample.empty_world
              = (Raises e, sample.empty_world))
  ∧ (∀ filename e,
       (process_pdf_document E sample.pdf_bytes filename sample.empty_world).1
         = Raises e →
       ¬ unsupported_format e).
Proof.
  split.
  - apply ingestion_rejects_by_content. vm_compute. discriminate.
  - apply ingestion_rejects_by_content. vm_compute. reflexivity.
Defined.

End validation.

(** ** Ingestion: what reaches the store *)

Section registration.

Import gemini.

(** The store after one run of [process_pdf_document]: on success it is
    the store before with the returned document bound to the generated
    identifier; on failure it is the store before. *)
Lemma process_pdf_document_store E w file_content filename :
  match process_pdf_document E file_content filename w with
  | (Returns doc, w') =>
      documents_store w' = <[uuid4 E := doc]> (documents_store w)
      ∧ models.id doc = uuid4 E ∧ models.filename doc = filename
  | (Raises e, w') => documents_store w' = documents_store w
  end.
Proof.
  unfold process_pdf_document.
  destruct (filetype_guess E file_content) as [mime|]; simpl; [|done].
  destruct (negb (String.eqb mime "application/pdf")); simpl; [done|].
  unfold convert_pages, try_except, extract_and_store, chat_completion, loads,
    lift, store_setitem, raise, print, models.ProcessedDocument_init,
    mbind, M_bind, mret, M_ret.
  destruct (fitz_render E file_content) as [err|pages]; simpl; [done|].
  destruct (chat_create E _) as [err|content]; simpl; [done|].
  destruct (json_loads E content) as [msg|v]; simpl; [done|].
  destruct v; simpl; try done.
  destruct (models.validate_str _ _ _); simpl; done.
Qed.

(** C1, as the code has it.  The registration [documents_store[doc_id] =
    processed_doc] never fails.  It binds the identifier to the new
    document whether or not the identifier was present: an entry already
    there is replaced.  Every other entry is left as it was, so for an
    identifier not yet present exactly that entry is added. *)
Theorem store_setitem_replaces_or_adds (w : World) (doc_id : string)
    (processed_doc : models.ProcessedDocument) :
  ∃ w', store_setitem doc_id processed_doc w = (Returns tt, w')
    ∧ documents_store w' !! doc_id = Some processed_doc
    ∧ (∀ other, other ≠ doc_id →
         documents_store w' !! other = documents_store w !! other)
    ∧ (documents_store w !! doc_id = None →
         size (documents_store w') = S (size (documents_store w)))
    ∧ (is_Some (documents_store w !! doc_id) →
         size (documents_store w') = size (documents_store w)).
Proof.
  eexists. split; [reflexivity|]. simpl. repeat split.
  - apply lookup_insert_eq.
  - intros other Hne. by apply lookup_insert_ne.
  - intros Hnone. by apply map_size_insert_None.
  - intros [old Hold]. by eapply map_size_insert_Some.
Qed.

(** The theorem at work on a store that already holds the identifier. *)
Lemma store_setitem_replaces_or_adds_witness :
  let old := sample.stored "d" sample.full_metadata in
  let new := sample.stored "d" [] in
  ∃ w', store_setitem "d" new (sample.world_with old) = (Returns tt, w')
    ∧ documents_store w' !! "d" = Some new
    ∧ size (documents_store w') = 1.
Proof.
  destruct (store_setitem_replaces_or_adds
              (sample.world_with (sample.stored "d" sample.full_metadata))
              "d" (sample.stored "d" []))
    as (w' & Hrun & Hnew & _ & _ & Hsize).
  exists w'. repeat split; [exact Hrun | exact Hnew |].
  rewrite Hsize; [vm_compute; reflexivity|].
  eexists. vm_compute. reflexivity.
Defined.

(** C1 as stated fails: registering a document under an identifier that
    the store already holds returns normally and the entry that was there
    is gone; so does a whole ingestion whose generated identifier is
    already in the store. *)
Lemma store_setitem_overwrites :
  let old := sample.stored "d" sample.full_metadata in
  let new := sample.stored "d" [] in
  let w := sample.world_with old in
  let E := sample.env "d" (inr "{}") [] None in
  documents_store w !! "d" = Some old
  ∧ models.metadata old = sample.full_metadata
  ∧ models.metadata new = []
  ∧ (store_setitem "d" new w).1 = Returns tt
  ∧ documents_store (store_setitem "d" new w).2 !! "d" = Some new
  ∧ (process_pdf_document E sample.pdf_bytes "paper.pdf" w).1 = Returns new
  ∧ documents_store (process_pdf_document E sample.pdf_bytes "paper.pdf" w).2 !! "d"
    = Some new.
Proof. vm_compute. repeat split; reflexivity. Qed.

(** C8, as the code has it.  Ingestion writes the store only in its
    last step.  Whenever [process_pdf_document] raises, at whatever
    stage, the store is the one it started from.  Whenever it returns, it
    has written exactly one binding: the returned document, which carries
    the given filename, is in the store under the generated identifier
    and every other entry is as it was.  So exactly one entry is added
    when the generated identifier was not in the store; when it was, the
    entry under it is replaced and the number of entries stays. *)
Theorem ingestion_is_atomic (E : Env) (w : World)
    (file_content : list Byte.byte) (filename : string) :
  (∀ e w', process_pdf_document E file_content filename w = (Raises e, w') →
     documents_store w' = documents_store w)
  ∧ (∀ doc w', process_pdf_document E file_content filename w = (Returns doc, w') →
     documents_store w' = <[models.id doc := doc]> (documents_store w)
     ∧ models.id doc = uuid4 E
     ∧ models.filename doc = filename
     ∧ documents_store w' !! models.id doc = Some doc
     ∧ (∀ other, other ≠ models.id doc →
          documents_store w' !! other = documents_store w !! other)
     ∧ (documents_store w !! uuid4 E = None →
          size (documents_store w') = S (size (documents_store w)))
     ∧ (is_Some (documents_store w !! uuid4 E) →
          size (documents_store w') = size (documents_store w))).
Proof.
  pose proof (process_pdf_document_store E w file_content filename) as H.
  split.
  - intros e w' Hrun. by rewrite Hrun in H.
  - intros doc w' Hrun. rewrite Hrun in H. destruct H as (Hst & Hid & Hname).
    rewrite Hid.
    split; [exact Hst|]. split; [reflexivity|]. split; [exact Hname|].
    split; [|split; [|split]].
    + rewrite Hst. apply lookup_insert_eq.
    + intros other Hne. rewrite Hst. by apply lookup_insert_ne.
    + intros Hfresh. rewrite Hst. by apply map_size_insert_None.
    + intros [old Hold]. rewrite Hst. by eapply map_size_insert_Some.
Qed.

(** The theorem at work: a response that is not JSON leaves the store
    empty, a well-formed response adds one entry to it. *)
Lemma ingestion_is_atomic_witness :
  let failing := sample.env "id-1" (inr sample.broken_text) [] None in
  let working := sample.env "id-1" (inr sample.full_text) [] None in
  let doc := {| models.id := "id-1"; models.filename := "paper.pdf";
                models.extracted_text := "";
                models.metadata := sample.full_metadata |} in
  documents_store
    (process_pdf_document failing sample.pdf_bytes "paper.pdf" sample.empty_world).2
    = documents_store sample.empty_world
  ∧ documents_store
      (process_pdf_document working sample.pdf_bytes "paper.pdf" sample.empty_world).2
      !! "id-1" = Some doc
  ∧ size (documents_store
      (process_pdf_document working sample.pdf_bytes "paper.pdf" sample.empty_world).2)
    = 1.
Proof.
  split.
  - eapply (proj1 (ingestion_is_atomic
                     (sample.env "id-1" (inr sample.broken_text) [] None)
                     sample.empty_world sample.pdf_bytes "paper.pdf")).
    vm_compute. reflexivity.
  - destruct (proj2 (ingestion_is_atomic
                       (sample.env "id-1" (inr sample.full_text) [] None)
                       sample.empty_world sample.pdf_bytes "paper.pdf")
                {| models.id := "id-1"; models.filename := "paper.pdf";
                   models.extracted_text := "";
                   models.metadata := sample.full_metadata |}
                (process_pdf_document
                   (sample.env "id-1" (inr sample.full_text) [] None)
                   sample.pdf_bytes "paper.pdf" sample.empty_world).2)
      as (_ & _ & _ & Hpresent & _ & Hfresh & _).
    + vm_compute. reflexivity.
    + split; [exact Hpresent|]. apply Hfresh. vm_compute. reflexivity.
Defined.

(** C8 as stated fails in its last part.  When the generated identifier
    is already in the store, ingestion succeeds and no entry is added:
    the store had one entry before and has one entry after, the document
    that was under the identifier being replaced by the new one. *)
Lemma ingestion_on_known_id_adds_no_entry :
  let old := sample.stored "d" sample.full_metadata in
  let new := sample.stored "d" [] in
  let w := sample.world_with old in
  let E := sample.env "d" (inr "{}") [] None in
  let run := process_pdf_document E sample.pdf_bytes "paper.pdf" w in
  run.1 = Returns new
  ∧ documents_store w !! "d" = Some old
  ∧ documents_store run.2 !! "d" = Some new
  ∧ size (documents_store w) = 1
  ∧ size (documents_store run.2) = 1.
Proof. vm_compute. repeat split; reflexivity. Qed.

End registration.

(** ** Summaries *)

(** [section] is a [dict] whose [title] is the string [t]. *)
Definition titled (section : json) (t : string) : Prop :=
  py.getitem section "title" = Returns (JStr t).

(** Equality of two titles once both are lowered. *)
Definition same_ignoring_case (a b : string) : Prop :=
  pystr.lower a = pystr.lower b.

(** A section with a string title that does not match [wanted]. *)
Definition other_title (wanted : string) (section : json) : Prop :=
  ∃ t, titled section t ∧ ¬ same_ignoring_case t wanted.

(** [section] is a [dict] whose [title] and [content] are the strings of
    the pair. *)
Definition section_of (section : json) (title_content : string * string) : Prop :=
  py.getitem section "title" = Returns (JStr title_content.1)
  ∧ py.getitem section "content" = Returns (JStr title_content.2).

(** The text of one section in a whole-document summary: the title, a
    colon, a newline, the content and an empty line. *)
Definition section_block (title_content : string * string) : string :=
  title_content.1 ++ ":" ++ pystr.nl ++ title_content.2 ++ pystr.nl ++ pystr.nl.

Fixpoint blocks (sections : list (string * string)) : string :=
  match sections with
  | [] => ""
  | tc :: rest => section_block tc ++ blocks rest
  end.

(** The whole document as one block of text, in the words of the
    specification: the abstract, then every section's title and content
    in document order. *)
Definition whole_document_text (abstract : string)
    (sections : list (string * string)) : string :=
  abstract ++ pystr.nl ++ pystr.nl ++ blocks sections.

Section summaries.

Import gemini.

Lemma append_assoc (a b c : string) : (a ++ b) ++ c = a ++ (b ++ c).
Proof.
  induction a as [|x r IH]; [reflexivity|].
  change (String x ((r ++ b) ++ c) = String x (r ++ (b ++ c))).
  by rewrite IH.
Qed.

(** The loop of the whole-document branch appends one block per section. *)
Lemma append_sections_blocks E acc sections pairs :
  Forall2 section_of sections pairs →
  append_sections E acc sections = Returns (acc ++ blocks pairs).
Proof.
  intros H. revert acc.
  induction H as [|section tc sections pairs [Ht Hc] _ IH]; intros acc; simpl.
  - f_equal. induction acc as [|x r IHr]; [reflexivity|].
    change (String x r = String x (r ++ "")). by rewrite <- IHr.
  - rewrite Ht. simpl. rewrite Hc. simpl. rewrite IH. f_equal.
    unfold section_block. by rewrite !append_assoc.
Qed.

(** The source and the specification agree on the text of a whole
    document. *)
Lemma whole_document_content E doc abstract sections pairs :
  dict_get (models.metadata doc) "abstract" (JStr "") = JStr abstract →
  dict_get (models.metadata doc) "sections" (JArr []) = JArr sections →
  Forall2 section_of sections pairs →
  content_to_summarize E doc None = Returns (JStr (whole_document_text abstract pairs)).
Proof.
  intros Habs Hsec Hpairs. unfold content_to_summarize. simpl.
  rewrite Habs, Hsec. simpl.
  rewrite (append_sections_blocks _ _ _ _ Hpairs). simpl.
  unfold whole_document_text. by rewrite !append_assoc.
Qed.

(** A title and its lowered form match. *)
Lemma same_ignoring_case_lowered (t : string) : same_ignoring_case (pystr.lower t) t.
Proof. apply lower_idempotent. Qed.

Lemma given_nonempty (t : string) : t ≠ "" → given (Some t) = Some t.
Proof. destruct t; simpl; congruence. Qed.

Lemma find_section_skips before rest wanted :
  Forall (other_title wanted) before →
  find_section (before ++ rest)%list wanted = find_section rest wanted.
Proof.
  induction 1 as [|section before (t & Ht & Hne) _ IH]; simpl; [done|].
  unfold titled in Ht. rewrite Ht. simpl.
  unfold same_ignoring_case in Hne.
  apply String.eqb_neq in Hne. by rewrite Hne.
Qed.

Lemma find_section_first section rest wanted t content :
  titled section t → same_ignoring_case t wanted →
  py.getitem section "content" = Returns content →
  find_section (section :: rest) wanted = Returns (Some content).
Proof.
  unfold titled, same_ignoring_case. intros Ht Heq Hc. simpl.
  rewrite Ht. simpl. apply String.eqb_eq in Heq. rewrite Heq.
  by rewrite Hc.
Qed.

(** The section branch yields the content of the first section whose
    lowered title equals the lowered [wanted]. *)
Lemma content_to_summarize_first_match E doc wanted
    (sections before : list json) (section : json) (after : list json)
    (t : string) (content : json) :
  wanted ≠ "" →
  dict_get (models.metadata doc) "sections" (JArr []) = JArr sections →
  sections = (before ++ section :: after)%list →
  Forall (other_title wanted) before →
  titled section t →
  same_ignoring_case t wanted →
  py.getitem section "content" = Returns content →
  content_to_summarize E doc (Some wanted) = Returns content.
Proof.
  intros Hwanted Hsections -> Hbefore Ht Hsame Hcontent.
  unfold content_to_summarize. rewrite (given_nonempty _ Hwanted), Hsections.
  simpl. rewrite (find_section_skips _ _ _ Hbefore).
  by rewrite (find_section_first _ _ _ _ _ Ht Hsame Hcontent).
Qed.

(** What [summarize_content] does with a string. *)
Lemma summarize_content_text E granularity text w :
  summarize_content E granularity (JStr text) w =
    if pystr.all_space text then (Returns no_content, w)
    else
      let request := summary_request E granularity (JStr text) in
      let w' := {| documents_store := documents_store w;
                   chat_calls := chat_calls w ++ [request];
                   stdout := stdout w |} in
      match chat_create E request with
      | inr response => (Returns (pystr.strip response), w')
      | inl err => (Raises (APIError err), w')
      end.
Proof.
  unfold summarize_content, lift, chat_completion, mbind, M_bind, mret, M_ret.
  simpl.
  destruct (pystr.all_space text) eqn:Hsp.
  - apply strip_empty_iff in Hsp. by rewrite Hsp.
  - destruct (pystr.strip text) eqn:Hst.
    + apply strip_empty_iff in Hst. congruence.
    + simpl. by destruct (chat_create E _).
Qed.

(** C4, as the code has it.  Take a stored document whose [sections]
    is a list, and a non-empty [section_title].  When the sections before
    the first one whose title equals it once both are lowered carry
    string titles, and that section has a string content, the coroutine
    summarizes that content and nothing else: a blank content gives the
    sentinel without a call; otherwise exactly one request goes to the
    generation capability, its prompt built from the granularity and that
    content alone, and the stripped answer is returned, or the failure of
    the call passed on.  When every section carries a string title and
    none matches, the coroutine raises the section-not-found error and
    leaves the world as it was.  Matching compares lowered titles, so a
    title that differs only in case selects the section. *)
Theorem summarize_selects_first_matching_section
    (E : Env) (w : World) (document_id wanted granularity : string)
    (doc : models.ProcessedDocument) (sections : list json) :
  documents_store w !! document_id = Some doc →
  wanted ≠ "" →
  dict_get (models.metadata doc) "sections" (JArr []) = JArr sections →
  (∀ (before : list json) (section : json) (after : list json)
     (t text : string),
     sections = (before ++ section :: after)%list →
     Forall (other_title wanted) before →
     titled section t →
     same_ignoring_case t wanted →
     py.getitem section "content" = Returns (JStr text) →
     summarize_document_section E document_id (Some wanted) granularity w =
       if pystr.all_space text then (Returns "No content found to summarize.", w)
       else
         let request :=
           {| model := "gpt-4o";
              user_content := ContentText (summary_prompt granularity text);
              response_format := None;
              temperature := "0.3" |} in
         (match chat_create E request with
          | inr response => Returns (pystr.strip response)
          | inl err => Raises (APIError err)
          end,
          {| documents_store := documents_store w;
             chat_calls := (chat_calls w ++ [request])%list;
             stdout := stdout w |}))
  ∧ (Forall (other_title wanted) sections →
     summarize_document_section E document_id (Some wanted) granularity w
       = (Raises (ValueError ("Section '" ++ wanted ++ "' not found in document.")), w)).
Proof.
  intros Hdoc Hwanted Hsections.
  pose proof (require_document_present _ _ _ Hdoc) as Hreq.
  split.
  - intros before section after t text Hsplit Hbefore Ht Hsame Hcontent.
    pose proof (content_to_summarize_first_match E _ _ _ _ _ _ _ _
                  Hwanted Hsections Hsplit Hbefore Ht Hsame Hcontent) as Hc.
    unfold summarize_document_section. rewrite (bind_returns _ _ _ _ _ Hreq).
    unfold lift. erewrite bind_returns by (rewrite Hc; reflexivity).
    rewrite summarize_content_text.
    destruct (pystr.all_space text); [reflexivity|]. simpl.
    by destruct (chat_create E _).
  - intros Hnone.
    unfold summarize_document_section. rewrite (bind_returns _ _ _ _ _ Hreq).
    unfold content_to_summarize. rewrite (given_nonempty _ Hwanted), Hsections.
    simpl. rewrite <- (app_nil_r sections), (find_section_skips _ _ _ Hnone).
    reflexivity.
Qed.

(** The theorem at work on a document with the sections Introduction and
    Results: the title RESULTS skips the first section and has the
    content of the second summarized, the title Methods matches none. *)
Lemma summarize_selects_first_matching_section_witness :
  let E := sample.env "id-1" (inr " A summary. ") [] None in
  let doc := sample.stored "d" sample.full_metadata in
  let w := sample.world_with doc in
  ((summarize_document_section E "d" (Some "RESULTS") "overview" w).1
     = Returns "A summary."
   ∧ chat_calls (summarize_document_section E "d" (Some "RESULTS") "overview" w).2
     = [{| model := "gpt-4o";
           user_content :=
             ContentText (summary_prompt "overview" "Accuracy is 95.2%.");
           response_format := None;
           temperature := "0.3" |}])
  ∧ summarize_document_section E "d" (Some "Methods") "overview" w
    = (Raises (ValueError "Section 'Methods' not found in document."), w).
Proof.
  split.
  - cbv zeta.
    rewrite (proj1 (summarize_selects_first_matching_section
                      (sample.env "id-1" (inr " A summary. ") [] None)
                      (sample.world_with (sample.stored "d" sample.full_metadata))
                      "d" "RESULTS" "overview"
                      (sample.stored "d" sample.full_metadata)
                      [sample.intro_section; sample.results_section]
                      ltac:(vm_compute; reflexivity) ltac:(discriminate)
                      ltac:(reflexivity))
               [sample.intro_section] sample.results_section [] "Results"
               "Accuracy is 95.2%." eq_refl
               ltac:(constructor; [|constructor]; exists "Introduction";
                     split; [reflexivity | vm_compute; discriminate])
               eq_refl ltac:(vm_compute; reflexivity) eq_refl).
    split; vm_compute; reflexivity.
  - apply (proj2 (summarize_selects_first_matching_section
                    (sample.env "id-1" (inr " A summary. ") [] None)
                    (sample.world_with (sample.stored "d" sample.full_metadata))
                    "d" "Methods" "overview"
                    (sample.stored "d" sample.full_metadata)
                    [sample.intro_section; sample.results_section]
                    ltac:(vm_compute; reflexivity) ltac:(discriminate)
                    ltac:(reflexivity))).
    repeat constructor.
    + exists "Introduction". split; [reflexivity | vm_compute; discriminate].
    + exists "Results". split; [reflexivity | vm_compute; discriminate].
Defined.

(** C4 as stated fails on stored documents with a section that has no
    title.  With such a section as the only one, no section matches the
    requested title, yet the coroutine raises [KeyError] and not the
    section-not-found error; with such a section before the one that
    carries the requested title, that section is not selected and the
    same [KeyError] is raised. *)
Lemma summarize_fails_on_untitled_section :
  let E := sample.env "id-1" (inr " A summary. ") [] None in
  let untitled := JObj [("heading", JStr "Notes"); ("content", JStr "Some notes.")] in
  let alone := sample.world_with (sample.stored "d" [("sections", JArr [untitled])]) in
  let first := sample.world_with
                 (sample.stored "d"
                    [("sections", JArr [untitled; sample.results_section])]) in
  summarize_document_section E "d" (Some "Methods") "overview" alone
    = (Raises (KeyError "title"), alone)
  ∧ py.getitem sample.results_section "title" = Returns (JStr "Results")
  ∧ summarize_document_section E "d" (Some "Results") "overview" first
    = (Raises (KeyError "title"), first).
Proof. vm_compute. repeat split; reflexivity. Qed.

Lemma all_space_app (a b : string) :
  pystr.all_space (a ++ b) = pystr.all_space a && pystr.all_space b.
Proof.
  induction a as [|c r IH]; simpl; [done|].
  by rewrite IH, andb_assoc.
Qed.

(** C5.  On a stored document, whenever the assembled content is a
    string that is empty or made of whitespace only, the coroutine
    returns exactly the sentinel and leaves the world as it was: no
    request is added to [chat_calls].  In section mode this is the case
    when the content of the matched section is such a string; in
    whole-document mode, when the abstract is missing, empty or blank and
    there are no sections. *)
Theorem summarize_blank_content_returns_sentinel
    (E : Env) (w : World) (document_id granularity : string)
    (doc : models.ProcessedDocument) :
  documents_store w !! document_id = Some doc →
  (∀ section_title text,
     content_to_summarize E doc section_title = Returns (JStr text) →
     pystr.all_space text = true →
     summarize_document_section E document_id section_title granularity w
       = (Returns "No content found to summarize.", w))
  ∧ (∀ (wanted : string) (sections before : list json) (section : json)
       (after : list json) (t text : string),
     wanted ≠ "" →
     dict_get (models.metadata doc) "sections" (JArr []) = JArr sections →
     sections = (before ++ section :: after)%list →
     Forall (other_title wanted) before →
     titled section t →
     same_ignoring_case t wanted →
     py.getitem section "content" = Returns (JStr text) →
     pystr.all_space text = true →
     summarize_document_section E document_id (Some wanted) granularity w
       = (Returns "No content found to summarize.", w))
  ∧ (∀ abstract,
     dict_get (models.metadata doc) "abstract" (JStr "") = JStr abstract →
     pystr.all_space abstract = true →
     dict_get (models.metadata doc) "sections" (JArr []) = JArr [] →
     summarize_document_section E document_id None granularity w
       = (Returns "No content found to summarize.", w)).
Proof.
  intros Hdoc.
  pose proof (require_document_present _ _ _ Hdoc) as Hreq.
  assert (∀ section_title text,
     content_to_summarize E doc section_title = Returns (JStr text) →
     pystr.all_space text = true →
     summarize_document_section E document_id section_title granularity w
       = (Returns "No content found to summarize.", w)) as Hblank.
  { intros section_title text Hc Hsp.
    unfold summarize_document_section. rewrite (bind_returns _ _ _ _ _ Hreq).
    unfold lift. erewrite bind_returns by (rewrite Hc; reflexivity).
    by rewrite summarize_content_text, Hsp. }
  split; [exact Hblank|]. split.
  - intros wanted sections before section after t text
      Hwanted Hsections Hsplit Hbefore Ht Hsame Hcontent Hsp.
    apply (Hblank (Some wanted) text); [|exact Hsp].
    exact (content_to_summarize_first_match E _ _ _ _ _ _ _ _
             Hwanted Hsections Hsplit Hbefore Ht Hsame Hcontent).
  - intros abstract Habs Hsp Hsec.
    apply (Hblank None (whole_document_text abstract [])).
    + apply (whole_document_content E doc abstract [] []); [done | done |].
      constructor.
    + unfold whole_document_text. by rewrite !all_space_app, Hsp.
Qed.

(** The theorem at work: a document whose metadata is the empty object,
    summarized as a whole, and a document whose only section has a blank
    content, summarized by section. *)
Lemma summarize_blank_content_returns_sentinel_witness :
  let E := sample.env "id-1" (inr " A summary. ") [] None in
  let bare := sample.world_with (sample.stored "d" []) in
  let blank := sample.world_with (sample.stored "d" sample.blank_metadata) in
  summarize_document_section E "d" None "overview" bare
    = (Returns "No content found to summarize.", bare)
  ∧ summarize_document_section E "d" (Some "notes") "overview" blank
    = (Returns "No content found to summarize.", blank).
Proof.
  split.
  - apply (proj2 (proj2 (summarize_blank_content_returns_sentinel
                    (sample.env "id-1" (inr " A summary. ") [] None)
                    (sample.world_with (sample.stored "d" []))
                    "d" "overview" (sample.stored "d" [])
                    ltac:(vm_compute; reflexivity))) "");
      reflexivity.
  - apply (proj1 (proj2 (summarize_blank_content_returns_sentinel
                    (sample.env "id-1" (inr " A summary. ") [] None)
                    (sample.world_with (sample.stored "d" sample.blank_metadata))
                    "d" "overview" (sample.stored "d" sample.blank_metadata)
                    ltac:(vm_compute; reflexivity)))
             "notes" [sample.blank_section] [] sample.blank_section [] "Notes" "  ");
      try reflexivity; [discriminate | constructor].
Defined.

(** C10.  The empty string as [section_title] is falsy, so the
    coroutine takes the whole-document branch: it assembles the same
    content and behaves in every respect as when [section_title] is
    omitted, and it never raises a section-not-found error.  On a stored
    document with a string abstract and sections that carry string titles
    and contents, what it summarizes is the whole document: the text is
    the abstract followed by every section's title and content in
    document order; if that text is blank the sentinel is returned
    without a call, otherwise exactly one request goes to the generation
    capability, its prompt built from the granularity and that text, and
    the stripped answer is returned, or the failure of the call passed
    on.  On every stored document the run is the one the whole-document
    content prescribes: the error of assembling it, raised with the world
    untouched, or the summary of the assembled text. *)
Theorem summarize_empty_title_is_whole_document
    (E : Env) (w : World) (document_id granularity : string) :
  (∀ doc, content_to_summarize E doc (Some "") = content_to_summarize E doc None)
  ∧ summarize_document_section E document_id (Some "") granularity w
    = summarize_document_section E document_id None granularity w
  ∧ (∀ any_title,
       (summarize_document_section E document_id (Some "") granularity w).1
         ≠ Raises (section_not_found any_title))
  ∧ (∀ doc abstract sections pairs,
       dict_get (models.metadata doc) "abstract" (JStr "") = JStr abstract →
       dict_get (models.metadata doc) "sections" (JArr []) = JArr sections →
       Forall2 section_of sections pairs →
       content_to_summarize E doc (Some "")
         = Returns (JStr (whole_document_text abstract pairs)))
  ∧ (∀ doc abstract sections pairs,
       documents_store w !! document_id = Some doc →
       dict_get (models.metadata doc) "abstract" (JStr "") = JStr abstract →
       dict_get (models.metadata doc) "sections" (JArr []) = JArr sections →
       Forall2 section_of sections pairs →
       summarize_document_section E document_id (Some "") granularity w =
         let text := whole_document_text abstract pairs in
         if pystr.all_space text then (Returns "No content found to summarize.", w)
         else
           let request :=
             {| model := "gpt-4o";
                user_content := ContentText (summary_prompt granularity text);
                response_format := None;
                temperature := "0.3" |} in
           (match chat_create E request with
            | inr response => Returns (pystr.strip response)
            | inl err => Raises (APIError err)
            end,
            {| documents_store := documents_store w;
               chat_calls := (chat_calls w ++ [request])%list;
               stdout := stdout w |}))
  ∧ (∀ doc,
       documents_store w !! document_id = Some doc →
       (∃ e, content_to_summarize E doc None = Raises e
             ∧ summarize_document_section E document_id (Some "") granularity w
               = (Raises e, w))
       ∨ (∃ text, content_to_summarize E doc None = Returns (JStr text)
                  ∧ summarize_document_section E document_id (Some "") granularity w =
                    if pystr.all_space text
                    then (Returns "No content found to summarize.", w)
                    else
                      let request :=
                        {| model := "gpt-4o";
                           user_content :=
                             ContentText (summary_prompt granularity text);
                           response_format := None;
                           temperature := "0.3" |} in
                      (match chat_create E request with
                       | inr response => Returns (pystr.strip response)
                       | inl err => Raises (APIError err)
                       end,
                       {| documents_store := documents_store w;
                          chat_calls := (chat_calls w ++ [request])%list;
                          stdout := stdout w |}))).
Proof.
  split; [reflexivity|]. split; [reflexivity|]. split; [|split; [|split]].
  - intros any_title Hraise.
    destruct (documents_store w !! document_id) as [doc|] eqn:Hdoc.
    + destruct (summarize_stored_raises _ _ _ _ _ _ _ Hdoc Hraise)
        as [Hdyn | [(t & Hgiven & _) | [msg Hmsg]]].
      * exact (section_not_found_not_dynamic _ Hdyn).
      * discriminate Hgiven.
      * discriminate Hmsg.
    + unfold summarize_document_section in Hraise.
      rewrite (bind_raises _ _ _ _ _ (require_document_absent _ _ Hdoc)) in Hraise.
      apply (section_not_found_ne_document_not_found any_title document_id).
      simpl in Hraise. congruence.
  - intros doc abstract sections pairs Habs Hsec Hpairs.
    by apply (whole_document_content E doc abstract sections pairs).
  - intros doc abstract sections pairs Hdoc Habs Hsec Hpairs.
    pose proof (whole_document_content E doc abstract sections pairs
                  Habs Hsec Hpairs) as Hc.
    change (content_to_summarize E doc None)
      with (content_to_summarize E doc (Some "")) in Hc.
    unfold summarize_document_section.
    rewrite (bind_returns _ _ _ _ _ (require_document_present _ _ _ Hdoc)).
    unfold lift. erewrite bind_returns by (rewrite Hc; reflexivity).
    rewrite summarize_content_text. cbv zeta.
    destruct (pystr.all_space (whole_document_text abstract pairs)); [reflexivity|].
    simpl. by destruct (chat_create E _).
  - intros doc Hdoc.
    unfold summarize_document_section.
    rewrite (bind_returns _ _ _ _ _ (require_document_present _ _ _ Hdoc)).
    change (content_to_summarize E doc (Some ""))
      with (content_to_summarize E doc None).
    destruct (content_to_summarize E doc None) as [content|e] eqn:Hc.
    + right.
      assert (∃ text, content = JStr text) as [text ->].
      { unfold content_to_summarize in Hc. simpl in Hc.
        destruct (py.add_str _ _); [|discriminate]. simpl in Hc.
        destruct (py.iter _); [|discriminate]. simpl in Hc.
        destruct (append_sections _ _ _) as [text|]; [|discriminate].
        exists text. simpl in Hc. congruence. }
      exists text. split; [reflexivity|].
      unfold lift. erewrite bind_returns by reflexivity.
      rewrite summarize_content_text. cbv zeta.
      destruct (pystr.all_space text); [reflexivity|].
      simpl. by destruct (chat_create E _).
    + left. exists e. split; [reflexivity|].
      unfold lift. erewrite bind_raises by reflexivity. reflexivity.
Qed.

(** The theorem at work on the document with the sections Introduction
    and Results. *)
Lemma summarize_empty_title_is_whole_document_witness :
  let E := sample.env "id-1" (inr " A summary. ") [] None in
  let doc := sample.stored "d" sample.full_metadata in
  let whole := whole_document_text "An abstract."
                 [("Introduction", "We study caching.");
                  ("Results", "Accuracy is 95.2%.")] in
  (summarize_document_section E "d" (Some "") "overview" (sample.world_with doc)).1
    = Returns "A summary."
  ∧ chat_calls
      (summarize_document_section E "d" (Some "") "overview" (sample.world_with doc)).2
    = [{| model := "gpt-4o";
          user_content := ContentText (summary_prompt "overview" whole);
          response_format := None;
          temperature := "0.3" |}]
  ∧ content_to_summarize E doc (Some "") = Returns (JStr whole).
Proof.
  destruct (summarize_empty_title_is_whole_document
              (sample.env "id-1" (inr " A summary. ") [] None)
              (sample.world_with (sample.stored "d" sample.full_metadata))
              "d" "overview")
    as (_ & _ & _ & Htext & Hrun & _).
  cbv zeta.
  rewrite (Hrun (sample.stored "d" sample.full_metadata) "An abstract."
             [sample.intro_section; sample.results_section]
             [("Introduction", "We study caching."); ("Results", "Accuracy is 95.2%.")]
             ltac:(vm_compute; reflexivity) eq_refl eq_refl
             ltac:(repeat constructor)).
  split; [vm_compute; reflexivity|]. split; [vm_compute; reflexivity|].
  apply (Htext _ "An abstract." [sample.intro_section; sample.results_section]);
    [reflexivity | reflexivity | repeat constructor].
Defined.

End summaries.

(** ** Structured extraction from a stored document *)

Section extraction.

Import gemini.

(** C6, as the code has it.  On a stored document, once the generation
    capability has answered, [extract_evaluation_results] does not fail
    and does not touch the store.  When the answer is not valid JSON it
    returns the object with the single key [error]; when the answer is
    valid JSON it returns the decoded value as it is, hence an object
    exactly when the answer is the text of an object. *)
Theorem extraction_returns_decoded_value_or_error_object
    (E : Env) (w : World) (document_id query : string)
    (doc : models.ProcessedDocument) (content : string) :
  documents_store w !! document_id = Some doc →
  chat_create E (results_request E doc query) = inr content →
  ∃ result w',
    extract_evaluation_results E document_id query w = (Returns result, w')
    ∧ documents_store w' = documents_store w
    ∧ chat_calls w' = (chat_calls w ++ [results_request E doc query])%list
    ∧ (∀ msg, json_loads E content = inl msg →
         result = JObj [("error", JStr "Could not parse extracted results as JSON.")])
    ∧ (∀ decoded, json_loads E content = inr decoded → result = decoded).
Proof.
  intros Hdoc Hchat.
  pose proof (require_document_present _ _ _ Hdoc) as Hreq.
  unfold extract_evaluation_results. rewrite (bind_returns _ _ _ _ _ Hreq).
  unfold chat_completion, try_except, loads, print, raise, mbind, M_bind, mret, M_ret.
  rewrite Hchat.
  destruct (json_loads E content) as [msg|decoded]; simpl;
    do 2 eexists; (split; [reflexivity|]); simpl; repeat split;
    congruence.
Qed.

(** The theorem at work on an answer cut off in the middle of an object. *)
Lemma extraction_returns_decoded_value_or_error_object_witness :
  let E := sample.env "id-1" (inr sample.broken_text) [] None in
  let w := sample.world_with (sample.stored "d" sample.full_metadata) in
  ∃ w',
    extract_evaluation_results E "d" "accuracy" w
      = (Returns (JObj [("error", JStr "Could not parse extracted results as JSON.")]), w')
    ∧ documents_store w' = documents_store w.
Proof.
  destruct (extraction_returns_decoded_value_or_error_object
              (sample.env "id-1" (inr sample.broken_text) [] None)
              (sample.world_with (sample.stored "d" sample.full_metadata))
              "d" "accuracy" (sample.stored "d" sample.full_metadata)
              sample.broken_text
              ltac:(vm_compute; reflexivity) ltac:(reflexivity))
    as (result & w' & Hrun & Hstore & _ & Herror & _).
  exists w'. split; [|exact Hstore].
  rewrite Hrun, (Herror "Expecting value: line 1 column 1 (char 0)"); reflexivity.
Defined.

(** C6 as stated fails.  An answer that is valid JSON but not an object,
    here the array [[1, 2]], is returned as the list it decodes to; and
    when the capability call itself fails, so does the coroutine. *)
Lemma extraction_result_need_not_be_an_object :
  let w := sample.world_with (sample.stored "d" sample.full_metadata) in
  let answering := sample.env "id-1" (inr sample.array_text) [] None in
  let failing := sample.env "id-1" (inl "Connection error.") [] None in
  documents_store w !! "d" = Some (sample.stored "d" sample.full_metadata)
  ∧ json_loads answering sample.array_text = inr (JArr [JInt 1; JInt 2])
  ∧ (extract_evaluation_results answering "d" "accuracy" w).1
    = Returns (JArr [JInt 1; JInt 2])
  ∧ (extract_evaluation_results failing "d" "accuracy" w).1
    = Raises (APIError "Connection error.").
Proof. vm_compute. repeat split; reflexivity. Qed.

(** A failure of the capability call is not caught.  On a stored
    document, when the call made by [extract_evaluation_results] or by
    [query_document] fails, the coroutine raises that failure; the
    request has been made, the store is as it was and nothing is
    printed. *)
Theorem capability_failure_propagates
    (E : Env) (w : World) (document_id text : string)
    (doc : models.ProcessedDocument) (err : string) :
  documents_store w !! document_id = Some doc →
  (chat_create E (results_request E doc text) = inl err →
   extract_evaluation_results E document_id text w
     = (Raises (APIError err),
        {| documents_store := documents_store w;
           chat_calls := (chat_calls w ++ [results_request E doc text])%list;
           stdout := stdout w |}))
  ∧ (∀ request,
       request = {| model := "gpt-4o";
                    user_content :=
                      ContentText
                        (query_prompt (json_dumps E (JObj (models.metadata doc))) text);
                    response_format := None;
                    temperature := "0.2" |} →
       chat_create E request = inl err →
       query_document E document_id text w
         = (Raises (APIError err),
            {| documents_store := documents_store w;
               chat_calls := (chat_calls w ++ [request])%list;
               stdout := stdout w |})).
Proof.
  intros Hdoc.
  pose proof (require_document_present _ _ _ Hdoc) as Hreq.
  split.
  - intros Hchat.
    unfold extract_evaluation_results. rewrite (bind_returns _ _ _ _ _ Hreq).
    unfold chat_completion, mbind, M_bind. rewrite Hchat. reflexivity.
  - intros request -> Hchat.
    unfold query_document. rewrite (bind_returns _ _ _ _ _ Hreq).
    unfold chat_completion, mbind, M_bind. cbv zeta. rewrite Hchat. reflexivity.
Qed.

(** The theorem at work on a capability that cannot be reached. *)
Lemma capability_failure_propagates_witness :
  let E := sample.env "id-1" (inl "Connection error.") [] None in
  let w := sample.world_with (sample.stored "d" sample.full_metadata) in
  (extract_evaluation_results E "d" "accuracy" w).1
    = Raises (APIError "Connection error.")
  ∧ (query_document E "d" "What is the accuracy?" w).1
    = Raises (APIError "Connection error.").
Proof.
  destruct (capability_failure_propagates
              (sample.env "id-1" (inl "Connection error.") [] None)
              (sample.world_with (sample.stored "d" sample.full_metadata))
              "d" "accuracy" (sample.stored "d" sample.full_metadata)
              "Connection error." ltac:(vm_compute; reflexivity))
    as [Hextract _].
  destruct (capability_failure_propagates
              (sample.env "id-1" (inl "Connection error.") [] None)
              (sample.world_with (sample.stored "d" sample.full_metadata))
              "d" "What is the accuracy?" (sample.stored "d" sample.full_metadata)
              "Connection error." ltac:(vm_compute; reflexivity))
    as [_ Hquery].
  cbv zeta. split.
  - rewrite (Hextract eq_refl). reflexivity.
  - rewrite (Hquery _ eq_refl eq_refl). reflexivity.
Defined.

End extraction.

(** ** Paper search *)

Section search.

Import gemini.

(** C7, as the code has it.  [arxiv_lookup_tool] never raises.  When
    the search fails, at the import, at the request or while results are
    being read, it returns the empty list, whatever had been read.  When
    the search succeeds it returns one record per result the search
    yielded, in the order yielded and as many as were yielded: the cap
    [max_results] is handed to the search and the list is returned as it
    comes back, without being cut.  The store and the generation
    capability are not involved. *)
Theorem arxiv_lookup_never_raises (E : Env) (w : World) (query : string)
    (max_results : Z) :
  ∃ papers w',
    arxiv_lookup_tool E query max_results w = (Returns papers, w')
    ∧ documents_store w' = documents_store w
    ∧ chat_calls w' = chat_calls w
    ∧ (∀ found e, arxiv_results E query max_results = (found, Some e) →
         papers = [])
    ∧ (∀ found, arxiv_results E query max_results = (found, None) →
         papers = map paper_record found
         ∧ length papers = length found).
Proof.
  unfold arxiv_lookup_tool, search_papers, try_except, print, raise,
    mbind, M_bind, mret, M_ret.
  destruct (arxiv_results E query max_results) as [found [e|]]; simpl;
    do 2 eexists; (split; [reflexivity|]); simpl;
    (split; [reflexivity|]); (split; [reflexivity|]); split.
  - reflexivity.
  - discriminate.
  - discriminate.
  - intros found' [= <-]. split; [reflexivity|]. apply length_map.
Qed.

(** The theorem at work: a search that breaks after its first result
    gives the empty list, a search that yields two results for a cap of
    five gives two records. *)
Lemma arxiv_lookup_never_raises_witness :
  let breaking := sample.env "id-1" (inr "") [sample.paper "1"] (Some "HTTP 429") in
  let working := sample.env "id-1" (inr "") [sample.paper "1"; sample.paper "2"] None in
  (arxiv_lookup_tool breaking "caching" 5 sample.empty_world).1 = Returns []
  ∧ ∃ papers,
      (arxiv_lookup_tool working "caching" 5 sample.empty_world).1 = Returns papers
      ∧ papers = [paper_record (sample.paper "1"); paper_record (sample.paper "2")]
      ∧ length papers = 2.
Proof.
  split.
  - destruct (arxiv_lookup_never_raises
                (sample.env "id-1" (inr "") [sample.paper "1"] (Some "HTTP 429"))
                sample.empty_world "caching" 5)
      as (papers & w' & Hrun & _ & _ & Hfail & _).
    rewrite Hrun. simpl. f_equal. eapply Hfail. reflexivity.
  - destruct (arxiv_lookup_never_raises
                (sample.env "id-1" (inr "") [sample.paper "1"; sample.paper "2"] None)
                sample.empty_world "caching" 5)
      as (papers & w' & Hrun & _ & _ & _ & Hok).
    destruct (Hok _ eq_refl) as [Hpapers Hlen].
    exists papers. rewrite Hrun. split; [reflexivity|]. split; [exact Hpapers|].
    exact Hlen.
Defined.

(** C7 as stated fails in its last part.  Nothing in the coroutine cuts
    the list to [max_results]: when the search, asked for one result,
    yields two, both are returned. *)
Lemma arxiv_lookup_returns_more_than_the_cap :
  let E := sample.env "id-1" (inr "") [sample.paper "1"; sample.paper "2"] None in
  arxiv_results E "caching" 1 = ([sample.paper "1"; sample.paper "2"], None)
  ∧ (arxiv_lookup_tool E "caching" 1 sample.empty_world).1
    = Returns [paper_record (sample.paper "1"); paper_record (sample.paper "2")]
  ∧ length [paper_record (sample.paper "1"); paper_record (sample.paper "2")] = 2.
Proof. vm_compute. repeat split; reflexivity. Qed.

End search.

(** ** Ingestion: a response with fields missing *)

Section permissive.

Import gemini.

(** C9, as the code has it.  Let the payload be a PDF that rasterizes,
    and let the capability answer with the text of a JSON object whose
    [text_content] is absent or a string.  Then ingestion succeeds
    whichever of [title], [abstract], [sections] and [references] the
    object lacks.  The metadata of the document is the decoded object
    itself: a field that is present is kept as it is, a field that is
    missing stays missing and is read as the default a reader passes to
    [.get], the empty string for [abstract] and the empty list for
    [sections]. *)
Theorem ingestion_keeps_partial_metadata
    (E : Env) (w : World) (file_content : list Byte.byte) (filename : string)
    (pages : list (list Byte.byte)) (response : string)
    (fields : list (string * json)) (text : string) :
  filetype_guess E file_content = Some "application/pdf" →
  fitz_render E file_content = inr pages →
  chat_create E (extraction_request (TextPart prompt_text :: map (image_part E) pages))
    = inr response →
  json_loads E response = inr (JObj fields) →
  dict_get fields "text_content" (JStr "") = JStr text →
  let doc := {| models.id := uuid4 E; models.filename := filename;
                models.extracted_text := text; models.metadata := fields |} in
  (process_pdf_document E file_content filename w).1 = Returns doc
  ∧ documents_store (process_pdf_document E file_content filename w).2 !! uuid4 E
    = Some doc
  ∧ (∀ field value default, dict_lookup field fields = Some value →
       dict_get (models.metadata doc) field default = value)
  ∧ (∀ field default, dict_lookup field fields = None →
       dict_get (models.metadata doc) field default = default)
  ∧ (dict_lookup "abstract" fields = None → dict_lookup "sections" fields = None →
       content_to_summarize E doc None = Returns (JStr (pystr.nl ++ pystr.nl))).
Proof.
  intros Hkind Hpages Hchat Hjson Htext doc.
  assert (process_pdf_document E file_content filename w
          = (Returns doc,
             {| documents_store := <[uuid4 E := doc]> (documents_store w);
                chat_calls :=
                  (chat_calls w
                   ++ [extraction_request
                         (TextPart prompt_text :: map (image_part E) pages)])%list;
                stdout := stdout w |})) as Hrun.
  { unfold process_pdf_document. rewrite Hkind. simpl.
    unfold convert_pages, try_except, extract_and_store, chat_completion, loads,
      lift, store_setitem, raise, print, models.ProcessedDocument_init,
      mbind, M_bind, mret, M_ret.
    rewrite Hpages. simpl. rewrite Hchat. simpl. rewrite Hjson. simpl.
    rewrite Htext. reflexivity. }
  rewrite Hrun. simpl. repeat split.
  - apply lookup_insert_eq.
  - intros field value default Hin. unfold dict_get. by rewrite Hin.
  - intros field default Hout. unfold dict_get. by rewrite Hout.
  - intros Habs Hsec. unfold content_to_summarize, dict_get. simpl.
    by rewrite Habs, Hsec.
Qed.

(** The theorem at work on a response that carries a title and nothing
    else. *)
Lemma ingestion_keeps_partial_metadata_witness :
  let E := sample.env "id-1" (inr sample.only_title_text) [] None in
  let doc := {| models.id := "id-1"; models.filename := "paper.pdf";
                models.extracted_text := "";
                models.metadata := [("title", JStr "A Paper")] |} in
  (process_pdf_document E sample.pdf_bytes "paper.pdf" sample.empty_world).1
    = Returns doc
  ∧ dict_get (models.metadata doc) "title" (JStr "") = JStr "A Paper"
  ∧ dict_get (models.metadata doc) "sections" (JArr []) = JArr [].
Proof.
  destruct (ingestion_keeps_partial_metadata
              (sample.env "id-1" (inr sample.only_title_text) [] None)
              sample.empty_world sample.pdf_bytes "paper.pdf"
              [[Byte.x89; Byte.x50; Byte.x4e; Byte.x47]]
              sample.only_title_text [("title", JStr "A Paper")] ""
              ltac:(reflexivity) ltac:(reflexivity) ltac:(reflexivity)
              ltac:(reflexivity) ltac:(reflexivity))
    as (Hrun & _ & Hpresent & Hmissing & _).
  split; [exact Hrun|]. split.
  - apply Hpresent. reflexivity.
  - apply Hmissing. reflexivity.
Defined.

(** C9 as stated fails.  The object with the single field
    [text_content] set to null lacks all four fields and decodes as an
    object, yet ingestion raises the validation error of
    [extracted_text] and stores nothing.  And where ingestion succeeds,
    here on the empty object, the metadata stored has no entry for the
    missing fields rather than empty values. *)
Lemma ingestion_fails_on_null_text_content :
  let E := sample.env "id-1" (inr sample.null_text_content) [] None in
  let E' := sample.env "id-1" (inr "{}") [] None in
  json_loads E sample.null_text_content = inr (JObj [("text_content", JNull)])
  ∧ (process_pdf_document E sample.pdf_bytes "paper.pdf" sample.empty_world).1
    = Raises (ValidationError "extracted_text")
  ∧ documents_store
      (process_pdf_document E sample.pdf_bytes "paper.pdf" sample.empty_world).2
    = ∅
  ∧ (process_pdf_document E' sample.pdf_bytes "paper.pdf" sample.empty_world).1
    = Returns {| models.id := "id-1"; models.filename := "paper.pdf";
                 models.extracted_text := ""; models.metadata := [] |}.
Proof. vm_compute. repeat split; reflexivity. Qed.

End permissive.

(** * Further properties of [backend/gemini.py] *)

(** ** What one run does to the world *)

(** From [w] to [w'] the store is untouched and at most one request went
    to the generation capability: the requests of [w'] are those of [w]
    followed by [new]. *)
Definition read_only_step (w w' : World) (new : list ChatRequest) : Prop :=
  documents_store w' = documents_store w
  ∧ chat_calls w' = (chat_calls w ++ new)%list
  ∧ (length new ≤ 1)%nat.

Section effects.

Import gemini.

Lemma read_only_step_refl (w : World) : read_only_step w w [].
Proof. repeat split; simpl; [by rewrite app_nil_r | lia]. Qed.

Lemma query_document_step E document_id question w :
  ∃ new, read_only_step w (query_document E document_id question w).2 new
         ∧ stdout (query_document E document_id question w).2 = stdout w.
Proof.
  unfold query_document.
  destruct (documents_store w !! document_id) as [doc|] eqn:Hdoc.
  - rewrite (bind_returns _ _ _ _ _ (require_document_present _ _ _ Hdoc)).
    unfold chat_completion, mbind, M_bind, mret, M_ret.
    eexists [_]. destruct (chat_create E _); simpl; repeat split; simpl; lia.
  - rewrite (bind_raises _ _ _ _ _ (require_document_absent _ _ Hdoc)).
    exists []. split; [apply read_only_step_refl | reflexivity].
Qed.

Lemma summarize_content_step E granularity content w :
  ∃ new, read_only_step w (summarize_content E granularity content w).2 new
         ∧ stdout (summarize_content E granularity content w).2 = stdout w.
Proof.
  unfold summarize_content, lift, chat_completion, mbind, M_bind, mret, M_ret.
  destruct (py.strip content) as [stripped|e]; simpl.
  - destruct (negb (pystr.truthy stripped)); simpl.
    + exists []. split; [apply read_only_step_refl | reflexivity].
    + eexists [_]. destruct (chat_create E _); simpl; repeat split; simpl; lia.
  - exists []. split; [apply read_only_step_refl | reflexivity].
Qed.

Lemma summarize_document_section_step E document_id section_title granularity w :
  ∃ new,
    read_only_step w
      (summarize_document_section E document_id section_title granularity w).2 new
    ∧ stdout (summarize_document_section E document_id section_title granularity w).2
      = stdout w.
Proof.
  unfold summarize_document_section.
  destruct (documents_store w !! document_id) as [doc|] eqn:Hdoc.
  - rewrite (bind_returns _ _ _ _ _ (require_document_present _ _ _ Hdoc)).
    unfold lift at 1. unfold mbind at 1. unfold M_bind at 1.
    destruct (content_to_summarize E doc section_title) as [content|e]; simpl.
    + apply summarize_content_step.
    + exists []. split; [apply read_only_step_refl | reflexivity].
  - rewrite (bind_raises _ _ _ _ _ (require_document_absent _ _ Hdoc)).
    exists []. split; [apply read_only_step_refl | reflexivity].
Qed.

Lemma extract_evaluation_results_step E document_id query w :
  ∃ new,
    read_only_step w (extract_evaluation_results E document_id query w).2 new.
Proof.
  unfold extract_evaluation_results.
  destruct (documents_store w !! document_id) as [doc|] eqn:Hdoc.
  - rewrite (bind_returns _ _ _ _ _ (require_document_present _ _ _ Hdoc)).
    unfold chat_completion, try_except, loads, print, raise, mbind, M_bind,
      mret, M_ret.
    eexists [_]. destruct (chat_create E _); simpl;
      [repeat split; simpl; lia|].
    destruct (json_loads E _); simpl; repeat split; simpl; lia.
  - rewrite (bind_raises _ _ _ _ _ (require_document_absent _ _ Hdoc)).
    exists []. apply read_only_step_refl.
Qed.

(** X1.  The three query coroutines only read the store: whatever the
    identifier, the document, the arguments and the answers of the
    outside world, and whether the run returns or raises, the store
    afterwards is the store before, and at most one request has gone to
    the generation capability. *)
Theorem queries_never_write_the_store
    (E : Env) (w : World) (document_id question query granularity : string)
    (section_title : option string) :
  (∃ new, read_only_step w (query_document E document_id question w).2 new)
  ∧ (∃ new, read_only_step w
       (summarize_document_section E document_id section_title granularity w).2 new)
  ∧ (∃ new, read_only_step w
       (extract_evaluation_results E document_id query w).2 new).
Proof.
  split; [|split].
  - destruct (query_document_step E document_id question w) as (new & H & _). eauto.
  - destruct (summarize_document_section_step E document_id section_title
                granularity w) as (new & H & _). eauto.
  - apply extract_evaluation_results_step.
Qed.

End effects.

(** ** Ingestion: rasterization and the request *)

(** The exceptions of the extraction stage: of the model call, of the
    JSON decoder, of [.get] on a value that is not a [dict], and of the
    validation of the document. *)
Definition extraction_error (e : exn) : Prop :=
  match e with
  | APIError _ | JSONDecodeError _ | AttributeError _ | ValidationError _ => True
  | _ => False
  end.

Section ingestion_steps.

Import gemini.

Lemma extract_and_store_raises_extraction_error E doc_id filename parts w e :
  (extract_and_store E doc_id filename parts w).1 = Raises e → extraction_error e.
Proof.
  unfold extract_and_store, chat_completion, loads, lift, raise,
    models.ProcessedDocument_init, models.validate_str, mbind, M_bind, mret, M_ret.
  destruct (chat_create E _) as [err|content]; simpl;
    [intros [= <-]; exact I|].
  destruct (json_loads E content) as [msg|v]; simpl;
    [intros [= <-]; exact I|].
  destruct v; simpl; try (intros [= <-]; exact I).
  destruct (dict_get fields "text_content" (JStr "")); simpl;
    try (intros [= <-]; exact I); try discriminate;
    destruct (pydantic_coerce E _); simpl;
    try (intros [= <-]; exact I); discriminate.
Qed.

(** X2.  When the bytes are sniffed as PDF but the rasterizer raises,
    [process_pdf_document] raises a [ValueError] whose message is the
    conversion prefix followed by the text of that exception, for every
    filename; the generation capability is not called, nothing is
    printed and the store is untouched. *)
Theorem rasterization_failure_is_a_value_error
    (E : Env) (w : World) (file_content : list Byte.byte) (filename err : string) :
  filetype_guess E file_content = Some "application/pdf" →
  fitz_render E file_content = inl err →
  process_pdf_document E file_content filename w
    = (Raises (ValueError ("Error converting PDF pages to images: " ++ err)), w).
Proof.
  intros Hkind Hfitz. unfold process_pdf_document. rewrite Hkind. simpl.
  unfold convert_pages, raise, mbind, M_bind. by rewrite Hfitz.
Qed.

Lemma rasterization_failure_is_a_value_error_witness :
  let E := {| filetype_guess := sample.sniff; uuid4 := "id-1";
              fitz_render := fun _ => inl "cannot open broken document";
              b64encode := fun _ => "";
              chat_create := fun _ => inr "{}";
              json_loads := sample.decode; json_dumps := fun _ => "{}";
              py_repr := fun _ => "[]"; pydantic_coerce := fun _ => None;
              arxiv_results := fun _ _ => ([], None) |} in
  process_pdf_document E sample.pdf_bytes "paper.pdf" sample.empty_world
    = (Raises (ValueError
         "Error converting PDF pages to images: cannot open broken document"),
       sample.empty_world).
Proof.
  apply rasterization_failure_is_a_value_error; reflexivity.
Defined.

(** X3.  When the bytes are sniffed as PDF and rasterize to [pages],
    exactly one request goes to the generation capability, whether the
    run then succeeds or fails: it asks the model [gpt-4o] for a JSON
    object at temperature 0.0, and its content is the instruction
    followed by one image part per page, in page order, each the data URL
    of that page's PNG with detail [high]. *)
Theorem ingestion_sends_every_page_once
    (E : Env) (w : World) (file_content : list Byte.byte) (filename : string)
    (pages : list (list Byte.byte)) :
  filetype_guess E file_content = Some "application/pdf" →
  fitz_render E file_content = inr pages →
  ∃ request parts,
    chat_calls (process_pdf_document E file_content filename w).2
      = (chat_calls w ++ [request])%list
    ∧ model request = "gpt-4o"
    ∧ response_format request = Some "json_object"
    ∧ temperature request = "0.0"
    ∧ user_content request = ContentParts (TextPart prompt_text :: parts)
    ∧ length parts = length pages
    ∧ ∀ (i : nat) (page : list Byte.byte),
        pages !! i = Some page →
        parts !! i
          = Some (ImageUrlPart ("data:image/png;base64," ++ b64encode E page) "high").
Proof.
  intros Hkind Hfitz.
  exists (extraction_request (TextPart prompt_text :: map (image_part E) pages)),
         (map (image_part E) pages).
  split.
  - unfold process_pdf_document. rewrite Hkind. simpl.
    unfold convert_pages, try_except, extract_and_store, chat_completion, loads,
      lift, store_setitem, raise, print, models.ProcessedDocument_init,
      mbind, M_bind, mret, M_ret.
    rewrite Hfitz. simpl.
    destruct (chat_create E _) as [err|content]; simpl; [done|].
    destruct (json_loads E content) as [msg|v]; simpl; [done|].
    destruct v; simpl; try done.
    destruct (models.validate_str _ _ _); simpl; done.
  - repeat split; try reflexivity.
    + apply length_map.
    + intros i page Hpage. rewrite list_lookup_fmap, Hpage. reflexivity.
Qed.

Lemma ingestion_sends_every_page_once_witness :
  let E := sample.env "id-1" (inr sample.full_text) [] None in
  ∃ request parts,
    chat_calls (process_pdf_document E sample.pdf_bytes "paper.pdf"
                  sample.empty_world).2 = [request]
    ∧ user_content request = ContentParts (TextPart prompt_text :: parts)
    ∧ length parts = 1.
Proof.
  destruct (ingestion_sends_every_page_once
              (sample.env "id-1" (inr sample.full_text) [] None)
              sample.empty_world sample.pdf_bytes "paper.pdf"
              [[Byte.x89; Byte.x50; Byte.x4e; Byte.x47]]
              ltac:(reflexivity) ltac:(reflexivity))
    as (request & parts & Hcalls & _ & _ & _ & Hcontent & Hlen & _).
  exists request, parts. repeat split; assumption.
Defined.

(** After rasterization the coroutine is the body of its second [try]
    with the log line added on failure. *)
Lemma process_after_rasterization
    (E : Env) (w : World) (file_content : list Byte.byte) (filename : string)
    (pages : list (list Byte.byte)) :
  filetype_guess E file_content = Some "application/pdf" →
  fitz_render E file_content = inr pages →
  let run := process_pdf_document E file_content filename w in
  match extract_and_store E (uuid4 E) filename
          (TextPart prompt_text :: map (image_part E) pages) w with
  | (Returns doc, _) => run.1 = Returns doc ∧ stdout run.2 = stdout w
  | (Raises e, _) =>
      run.1 = Raises e
      ∧ stdout run.2
        = (stdout w ++ [("Error processing PDF with OpenAI: " ++ exn_str e)%string])%list
  end.
Proof.
  intros Hkind Hfitz run. subst run.
  unfold process_pdf_document. rewrite Hkind. simpl.
  unfold convert_pages, try_except, extract_and_store, chat_completion, loads,
    lift, store_setitem, raise, print, models.ProcessedDocument_init,
    mbind, M_bind, mret, M_ret.
  rewrite Hfitz. simpl.
  destruct (chat_create E _) as [err|content]; simpl; [done|].
  destruct (json_loads E content) as [msg|v]; simpl; [done|].
  destruct v; simpl; try done.
  destruct (models.validate_str _ _ _); simpl; done.
Qed.

(** X4.  Once the pages are rasterized, a failure of the rest of the
    ingestion is logged exactly once and passed on unwrapped: when the
    run raises [e], one line has been printed, the log prefix followed by
    [str(e)], and [e] is the exception of the model call, of the JSON
    decoder, of [.get] on a non-[dict] or of the validation, as it was
    raised; when the run returns, nothing has been printed. *)
Theorem extraction_failure_is_logged_and_reraised
    (E : Env) (w : World) (file_content : list Byte.byte) (filename : string)
    (pages : list (list Byte.byte)) :
  filetype_guess E file_content = Some "application/pdf" →
  fitz_render E file_content = inr pages →
  let run := process_pdf_document E file_content filename w in
  (∀ e, run.1 = Raises e →
     stdout run.2
       = (stdout w ++ [("Error processing PDF with OpenAI: " ++ exn_str e)%string])%list
     ∧ extraction_error e)
  ∧ (∀ doc, run.1 = Returns doc → stdout run.2 = stdout w).
Proof.
  intros Hkind Hfitz run.
  pose proof (process_after_rasterization E w file_content filename pages
                Hkind Hfitz) as H.
  simpl in H. fold run in H.
  destruct (extract_and_store E (uuid4 E) filename _ w) as [[doc|e] w1] eqn:Hbody;
    destruct H as [Hres Hout]; split.
  - intros e. rewrite Hres. discriminate.
  - intros doc'. by rewrite Hres.
  - intros e'. rewrite Hres. intros [= <-]. split; [exact Hout|].
    eapply extract_and_store_raises_extraction_error. by rewrite Hbody.
  - intros doc'. rewrite Hres. discriminate.
Qed.

Lemma extraction_failure_is_logged_and_reraised_witness :
  let E := sample.env "id-1" (inl "Connection error.") [] None in
  let run := process_pdf_document E sample.pdf_bytes "paper.pdf" sample.empty_world in
  run.1 = Raises (APIError "Connection error.")
  ∧ stdout run.2 = ["Error processing PDF with OpenAI: Connection error."].
Proof.
  split; [reflexivity|].
  destruct (extraction_failure_is_logged_and_reraised
              (sample.env "id-1" (inl "Connection error.") [] None)
              sample.empty_world sample.pdf_bytes "paper.pdf"
              [[Byte.x89; Byte.x50; Byte.x4e; Byte.x47]] eq_refl eq_refl)
    as [Hraise _].
  destruct (Hraise (APIError "Connection error.") eq_refl) as [Hout _].
  exact Hout.
Defined.

End ingestion_steps.

(** ** Answers are trimmed *)

(** The first character of [s] is whitespace. *)
Definition starts_with_space (s : string) : bool :=
  match s with
  | EmptyString => false
  | String c _ => pystr.isspace c
  end.

(** The last character of [s] is whitespace. *)
Fixpoint ends_with_space (s : string) : bool :=
  match s with
  | EmptyString => false
  | String c EmptyString => pystr.isspace c
  | String _ rest => ends_with_space rest
  end.

Section trimming.

Import pystr gemini.

Lemma lstrip_no_leading_space (s : string) : starts_with_space (lstrip s) = false.
Proof.
  induction s as [|c r IH]; simpl; [done|].
  destruct (isspace c) eqn:Hc; [exact IH | simpl; exact Hc].
Qed.

Lemma rstrip_no_trailing_space (s : string) : ends_with_space (rstrip s) = false.
Proof.
  induction s as [|c r IH]; simpl; [done|].
  destruct (rstrip r) as [|c' r'] eqn:Hr.
  - destruct (isspace c) eqn:Hc; simpl; [done | exact Hc].
  - exact IH.
Qed.

Lemma lstrip_keeps_the_end (s : string) :
  ends_with_space s = false → ends_with_space (lstrip s) = false.
Proof.
  induction s as [|c r IH]; [done|].
  intros H. change (lstrip (String c r)) with (if isspace c then lstrip r else String c r).
  destruct (isspace c) eqn:Hc; [|exact H].
  destruct r as [|c' r']; [simpl in H; congruence | exact (IH H)].
Qed.

Lemma rstrip_fixed (s : string) : ends_with_space s = false → rstrip s = s.
Proof.
  induction s as [|c r IH]; [done|].
  destruct r as [|c' r'].
  - simpl. by intros ->.
  - intros H. change (ends_with_space (String c' r') = false) in H.
    change (match rstrip (String c' r') with
            | EmptyString => if isspace c then EmptyString else String c EmptyString
            | String a b => String c (String a b)
            end = String c (String c' r')).
    by rewrite (IH H).
Qed.

Lemma lstrip_fixed (s : string) : starts_with_space s = false → lstrip s = s.
Proof. destruct s as [|c r]; simpl; [done|]. by intros ->. Qed.

(** What [strip] returns has whitespace at neither end, and stripping it
    again changes nothing. *)
Lemma strip_is_trimmed (s : string) :
  starts_with_space (strip s) = false
  ∧ ends_with_space (strip s) = false
  ∧ strip (strip s) = strip s.
Proof.
  unfold strip.
  pose proof (lstrip_no_leading_space (rstrip s)) as Hstart.
  pose proof (lstrip_keeps_the_end _ (rstrip_no_trailing_space s)) as Hend.
  repeat split; [exact Hstart | exact Hend |].
  by rewrite (rstrip_fixed _ Hend), (lstrip_fixed _ Hstart).
Qed.

(** X5.  Whatever text the generation capability answers with, the text
    [query_document] and [summarize_document_section] return has no
    whitespace at either end and is unchanged by a further [strip]; this
    holds for the sentinel of an empty summary as well. *)
Theorem answers_are_trimmed
    (E : Env) (w : World) (document_id question granularity answer : string)
    (section_title : option string) :
  ((query_document E document_id question w).1 = Returns answer →
     starts_with_space answer = false ∧ ends_with_space answer = false
     ∧ strip answer = answer)
  ∧ ((summarize_document_section E document_id section_title granularity w).1
       = Returns answer →
     starts_with_space answer = false ∧ ends_with_space answer = false
     ∧ strip answer = answer).
Proof.
  split.
  - unfold query_document.
    destruct (documents_store w !! document_id) as [doc|] eqn:Hdoc.
    + rewrite (bind_returns _ _ _ _ _ (require_document_present _ _ _ Hdoc)).
      unfold chat_completion, mbind, M_bind, mret, M_ret.
      destruct (chat_create E _); simpl; [discriminate|].
      intros [= <-]. apply strip_is_trimmed.
    + rewrite (bind_raises _ _ _ _ _ (require_document_absent _ _ Hdoc)).
      discriminate.
  - unfold summarize_document_section.
    destruct (documents_store w !! document_id) as [doc|] eqn:Hdoc.
    + rewrite (bind_returns _ _ _ _ _ (require_document_present _ _ _ Hdoc)).
      unfold summarize_content, lift, chat_completion, mbind, M_bind, mret, M_ret.
      destruct (content_to_summarize E doc section_title); simpl; [|discriminate].
      destruct (py.strip a); simpl; [|discriminate].
      destruct (negb (truthy a0)); simpl.
      * intros [= <-]. vm_compute. auto.
      * destruct (chat_create E _); simpl; [discriminate|].
        intros [= <-]. apply strip_is_trimmed.
    + rewrite (bind_raises _ _ _ _ _ (require_document_absent _ _ Hdoc)).
      discriminate.
Qed.

Lemma answers_are_trimmed_witness :
  let E := sample.env "id-1" (inr "  The accuracy is 95.2%.  ") [] None in
  let w := sample.world_with (sample.stored "d" sample.full_metadata) in
  (query_document E "d" "What is the accuracy?" w).1
    = Returns "The accuracy is 95.2%."
  ∧ strip "The accuracy is 95.2%." = "The accuracy is 95.2%.".
Proof.
  split; [reflexivity|].
  apply (proj1 (answers_are_trimmed
                  (sample.env "id-1" (inr "  The accuracy is 95.2%.  ") [] None)
                  (sample.world_with (sample.stored "d" sample.full_metadata))
                  "d" "What is the accuracy?" "overview"
                  "The accuracy is 95.2%." None)).
  reflexivity.
Defined.

End trimming.

(** ** More on section lookup *)

Section lookup.

Import gemini.

Lemma find_section_ignores_request_case sections t t' :
  same_ignoring_case t t' →
  find_section sections t = find_section sections t'.
Proof.
  unfold same_ignoring_case. intros Hsame.
  induction sections as [|section rest IH]; simpl; [done|].
  by rewrite Hsame, IH.
Qed.

(** X6.  The case of the requested title does not matter either: two
    non-empty titles that are equal once lowered select the same content
    from any document, well-shaped or not, and a run that finds its
    section is the same run for both.  (When no section matches, the two
    runs differ only in the title quoted by the error.) *)
Theorem summarize_ignores_case_of_request
    (E : Env) (w : World) (document_id granularity t t' : string)
    (doc : models.ProcessedDocument) :
  t ≠ "" → t' ≠ "" → same_ignoring_case t t' →
  documents_store w !! document_id = Some doc →
  ∀ content,
    content_to_summarize E doc (Some t) = Returns content →
    content_to_summarize E doc (Some t') = Returns content
    ∧ summarize_document_section E document_id (Some t') granularity w
      = summarize_document_section E document_id (Some t) granularity w.
Proof.
  intros Ht Ht' Hsame Hdoc content Hcontent.
  assert (content_to_summarize E doc (Some t') = Returns content) as Hcontent'.
  { revert Hcontent. unfold content_to_summarize.
    rewrite (given_nonempty _ Ht), (given_nonempty _ Ht').
    unfold mbind, outcome_bind.
    destruct (py.iter _) as [sections|e]; [|done].
    rewrite <- (find_section_ignores_request_case sections t t' Hsame).
    destruct (find_section sections t) as [[c|]|e]; done. }
  split; [exact Hcontent'|].
  pose proof (require_document_present _ _ _ Hdoc) as Hreq.
  unfold summarize_document_section.
  rewrite !(bind_returns _ _ _ _ _ Hreq).
  unfold lift, mbind, M_bind. by rewrite Hcontent, Hcontent'.
Qed.

Lemma summarize_ignores_case_of_request_witness :
  let E := sample.env "id-1" (inr " A summary. ") [] None in
  let doc := sample.stored "d" sample.full_metadata in
  let w := sample.world_with doc in
  content_to_summarize E doc (Some "results") = Returns (JStr "Accuracy is 95.2%.")
  ∧ summarize_document_section E "d" (Some "results") "overview" w
    = summarize_document_section E "d" (Some "RESULTS") "overview" w.
Proof.
  apply (summarize_ignores_case_of_request
           (sample.env "id-1" (inr " A summary. ") [] None)
           (sample.world_with (sample.stored "d" sample.full_metadata))
           "d" "overview" "RESULTS" "results"
           (sample.stored "d" sample.full_metadata));
    try discriminate; reflexivity.
Defined.

(** X7.  A section that is a [dict] without a usable title stops the
    lookup when the loop reaches it: with only non-matching sections
    before it, the coroutine raises [KeyError] for a missing [title] and
    [AttributeError] for a [title] that is not a string, instead of the
    section-not-found error, and it does so even when a later section
    carries the requested title.  The world is left as it was. *)
Theorem summarize_stops_at_section_without_title
    (E : Env) (w : World) (document_id wanted granularity : string)
    (doc : models.ProcessedDocument)
    (before after : list json) (fields : list (string * json)) :
  documents_store w !! document_id = Some doc →
  wanted ≠ "" →
  dict_get (models.metadata doc) "sections" (JArr [])
    = JArr (before ++ JObj fields :: after)%list →
  Forall (other_title wanted) before →
  (dict_lookup "title" fields = None →
     summarize_document_section E document_id (Some wanted) granularity w
       = (Raises (KeyError "title"), w))
  ∧ (∀ v, dict_lookup "title" fields = Some v → (∀ s, v ≠ JStr s) →
     summarize_document_section E document_id (Some wanted) granularity w
       = (Raises (no_attribute v "lower"), w)).
Proof.
  intros Hdoc Hwanted Hsections Hbefore.
  pose proof (require_document_present _ _ _ Hdoc) as Hreq.
  unfold summarize_document_section. rewrite (bind_returns _ _ _ _ _ Hreq).
  unfold content_to_summarize. rewrite (given_nonempty _ Hwanted), Hsections.
  simpl. rewrite (find_section_skips _ _ _ Hbefore). simpl. split.
  - intros ->. reflexivity.
  - intros v -> Hv. destruct v; simpl; try reflexivity.
    by destruct (Hv s).
Qed.

Lemma summarize_stops_at_section_without_title_witness :
  let E := sample.env "id-1" (inr " A summary. ") [] None in
  let untitled := [("heading", JStr "Results"); ("content", JStr "Accuracy.")] in
  let doc := sample.stored "d"
               [("sections", JArr [sample.intro_section; JObj untitled;
                                   sample.results_section])] in
  let w := sample.world_with doc in
  summarize_document_section E "d" (Some "Results") "overview" w
    = (Raises (KeyError "title"), w).
Proof.
  apply (proj1 (summarize_stops_at_section_without_title
                  (sample.env "id-1" (inr " A summary. ") [] None)
                  (sample.world_with
                     (sample.stored "d"
                        [("sections",
                          JArr [sample.intro_section;
                                JObj [("heading", JStr "Results");
                                      ("content", JStr "Accuracy.")];
                                sample.results_section])]))
                  "d" "Results" "overview"
                  (sample.stored "d"
                     [("sections",
                       JArr [sample.intro_section;
                             JObj [("heading", JStr "Results");
                                   ("content", JStr "Accuracy.")];
                             sample.results_section])])
                  [sample.intro_section] [sample.results_section]
                  [("heading", JStr "Results"); ("content", JStr "Accuracy.")]
                  ltac:(vm_compute; reflexivity) ltac:(discriminate)
                  ltac:(reflexivity)
                  ltac:(repeat constructor; exists "Introduction";
                        split; [reflexivity | vm_compute; discriminate]))).
  reflexivity.
Defined.

Lemma append_sections_extends E acc sections text :
  append_sections E acc sections = Returns text →
  ∃ suffix, text = acc ++ suffix.
Proof.
  revert acc. induction sections as [|section rest IH]; intros acc; simpl.
  - intros [= <-]. exists "". induction acc as [|x r IHr]; [done|].
    change (String x r = String x (r ++ "")). by rewrite <- IHr.
  - unfold mbind, outcome_bind.
    destruct (py.getitem section "title") as [title|e]; [|discriminate].
    destruct (py.getitem section "content") as [content|e]; [|discriminate].
    intros H. destruct (IH _ H) as [suffix ->].
    eexists. rewrite !append_assoc. reflexivity.
Qed.

(** X8.  In whole-document mode a document with at least one section
    never yields the sentinel for lack of content: the text assembled
    contains the colon that follows the first title, so it is not blank,
    and the run sends exactly one request, built from that text, to the
    generation capability. *)
Theorem whole_document_with_sections_is_summarized
    (E : Env) (w : World) (document_id granularity text : string)
    (doc : models.ProcessedDocument) (section : json) (rest : list json) :
  documents_store w !! document_id = Some doc →
  py.iter (dict_get (models.metadata doc) "sections" (JArr []))
    = Returns (section :: rest) →
  content_to_summarize E doc None = Returns (JStr text) →
  pystr.all_space text = false
  ∧ chat_calls (summarize_document_section E document_id None granularity w).2
    = (chat_calls w ++ [summary_request E granularity (JStr text)])%list.
Proof.
  intros Hdoc Hiter Hcontent.
  assert (pystr.all_space text = false) as Hblank.
  { revert Hcontent. unfold content_to_summarize. simpl.
    unfold mbind, outcome_bind.
    destruct (py.add_str _ _) as [abstract|e]; [|discriminate].
    rewrite Hiter. simpl. unfold mbind, outcome_bind.
    destruct (py.getitem section "title") as [title|e]; [|discriminate].
    destruct (py.getitem section "content") as [content|e]; [|discriminate].
    destruct (append_sections E _ rest) as [t|e] eqn:Happ; [|discriminate].
    intros [= <-]. destruct (append_sections_extends _ _ _ _ Happ) as [suffix ->].
    rewrite !all_space_app. simpl.
    by rewrite !andb_false_r. }
  split; [exact Hblank|].
  pose proof (require_document_present _ _ _ Hdoc) as Hreq.
  unfold summarize_document_section. rewrite (bind_returns _ _ _ _ _ Hreq).
  unfold lift. erewrite bind_returns by (rewrite Hcontent; reflexivity).
  rewrite summarize_content_text, Hblank. simpl.
  by destruct (chat_create E _).
Qed.

Lemma whole_document_with_sections_is_summarized_witness :
  let E := sample.env "id-1" (inr " A summary. ") [] None in
  let titles_only :=
    [("sections", JArr [JObj [("title", JStr ""); ("content", JStr "")]])] in
  let w := sample.world_with (sample.stored "d" titles_only) in
  length (chat_calls (summarize_document_section E "d" None "overview" w).2) = 1.
Proof.
  destruct (whole_document_with_sections_is_summarized
              (sample.env "id-1" (inr " A summary. ") [] None)
              (sample.world_with
                 (sample.stored "d"
                    [("sections",
                      JArr [JObj [("title", JStr ""); ("content", JStr "")]])]))
              "d" "overview"
              (pystr.nl ++ pystr.nl ++ ":" ++ pystr.nl ++ pystr.nl ++ pystr.nl)
              (sample.stored "d"
                 [("sections",
                   JArr [JObj [("title", JStr ""); ("content", JStr "")]])])
              (JObj [("title", JStr ""); ("content", JStr "")]) []
              ltac:(vm_compute; reflexivity) ltac:(reflexivity)
              ltac:(vm_compute; reflexivity))
    as [_ Hcalls].
  cbv zeta. rewrite Hcalls. reflexivity.
Defined.

End lookup.

(** * Properties of [backend/main.py] *)

(** The status of a reply is among [codes]; a response counts as
    admitted, an exception that escapes the handler does not. *)
Definition status_among {A : Type} (codes : list Z) (r : main.reply A) : Prop :=
  match r with
  | main.Responds _ => True
  | main.HTTPException status_code _ => status_code ∈ codes
  | main.Unhandled _ => False
  end.

Section handlers.

Import gemini api_models main.

Lemma endswith_suffix (s suffix : string) :
  endswith s suffix = true ↔ ∃ prefix, s = prefix ++ suffix.
Proof.
  split.
  - induction s as [|c r IH].
    + change (endswith "" suffix) with (String.eqb "" suffix || false).
      rewrite orb_false_r. intros H%String.eqb_eq. subst suffix. by exists "".
    + change (endswith (String c r) suffix)
        with (String.eqb (String c r) suffix || endswith r suffix).
      intros [H%String.eqb_eq | H]%orb_prop.
      * subst suffix. by exists "".
      * destruct (IH H) as [prefix ->]. by exists (String c prefix).
  - intros [prefix ->]. induction prefix as [|c r IH].
    + change ("" ++ suffix) with suffix.
      destruct suffix as [|x rest].
      * reflexivity.
      * change (endswith (String x rest) (String x rest))
          with (String.eqb (String x rest) (String x rest) || endswith rest (String x rest)).
        by rewrite String.eqb_refl.
    + change (String c r ++ suffix) with (String c (r ++ suffix)).
      change (endswith (String c (r ++ suffix)) suffix)
        with (String.eqb (String c (r ++ suffix)) suffix || endswith (r ++ suffix) suffix).
      rewrite IH. apply orb_true_r.
Qed.

(** The [try] of a handler around a coroutine whose result only fills a
    response. *)
Lemma guarded_map {A B : Type} (client_status : Z) (prefix : string)
    (m : M A) (f : A → B) (w : World) :
  guarded client_status prefix (a ← m; mret (f a)) w =
    match m w with
    | (Returns a, w') => (Responds (f a), w')
    | (Raises e, w') =>
        (if is_ValueError e then HTTPException client_status (exn_str e)
         else HTTPException 500 (prefix ++ exn_str e), w')
    end.
Proof.
  unfold guarded, mbind, M_bind, mret, M_ret.
  destruct (m w) as [[a|e] w']; [done|]. by destruct (is_ValueError e).
Qed.

(** X9.  [upload_document] looks at the name before anything else: a
    filename whose lowered form does not end in [.pdf] is answered with
    status 400 and the detail [Only PDF files are allowed.], whatever the
    bytes are, genuine PDF included; the pipeline is not entered, so the
    world is untouched. *)
Theorem upload_checks_the_name_first
    (E : Env) (w : World) (content : list Byte.byte) (name : string) :
  (∀ prefix, pystr.lower name ≠ prefix ++ ".pdf") →
  upload_document E {| upload_filename := Some name; upload_content := content |} w
    = (HTTPException 400 "Only PDF files are allowed.", w).
Proof.
  intros Hname. unfold upload_document. simpl.
  destruct (endswith (pystr.lower name) ".pdf") eqn:Hends; [|reflexivity].
  apply endswith_suffix in Hends as [prefix Hprefix]. by destruct (Hname prefix).
Qed.

Lemma upload_checks_the_name_first_witness :
  let E := sample.env "id-1" (inr sample.full_text) [] None in
  upload_document E {| upload_filename := Some "notes.txt";
                       upload_content := sample.pdf_bytes |} sample.empty_world
    = (HTTPException 400 "Only PDF files are allowed.", sample.empty_world).
Proof.
  apply (upload_checks_the_name_first
           (sample.env "id-1" (inr sample.full_text) [] None)
           sample.empty_world sample.pdf_bytes "notes.txt").
  intros prefix Hprefix.
  assert (endswith (pystr.lower "notes.txt") ".pdf" = true) as Hends
    by (apply endswith_suffix; eauto).
  vm_compute in Hends. discriminate Hends.
Defined.

(** The reply of [upload_document] once the name has passed. *)
Lemma upload_document_named (E : Env) (w : World) (name : string)
    (content : list Byte.byte) :
  endswith (pystr.lower name) ".pdf" = true →
  upload_document E {| upload_filename := Some name; upload_content := content |} w =
    match process_pdf_document E content name w with
    | (Returns doc, w') =>
        (Responds {| DocumentUploadResponse.filename := models.filename doc;
                     DocumentUploadResponse.message :=
                       "Document uploaded and processed successfully.";
                     DocumentUploadResponse.document_id := models.id doc |}, w')
    | (Raises e, w') =>
        (if is_ValueError e then HTTPException 400 (exn_str e)
         else HTTPException 500 ("Failed to process document: " ++ exn_str e), w')
    end.
Proof.
  intros Hname. unfold upload_document. simpl. rewrite Hname. simpl.
  apply (guarded_map 400 "Failed to process document: "
           (process_pdf_document E content name)).
Qed.

(** X10.  For a file whose name ends in [.pdf], a payload that is not a
    PDF and a PDF that cannot be rasterized are both answered with
    status 400, the detail being the message of the [ValueError] the
    pipeline raised; the world is untouched, so neither costs a call to
    the generation capability. *)
Theorem upload_answers_bad_content_with_400
    (E : Env) (w : World) (name : string) (content : list Byte.byte) :
  endswith (pystr.lower name) ".pdf" = true →
  let reply := upload_document E {| upload_filename := Some name;
                                    upload_content := content |} w in
  (filetype_guess E content ≠ Some "application/pdf" →
     ∃ detail, reply = (HTTPException 400 detail, w)
               ∧ unsupported_format (ValueError detail))
  ∧ (∀ err, filetype_guess E content = Some "application/pdf" →
       fitz_render E content = inl err →
       reply = (HTTPException 400 ("Error converting PDF pages to images: " ++ err), w)).
Proof.
  intros Hname reply. subst reply. rewrite (upload_document_named _ _ _ _ Hname).
  split.
  - intros Hkind. unfold process_pdf_document.
    destruct (filetype_guess E content) as [mime|].
    + assert (mime ≠ "application/pdf") as Hne by congruence.
      apply String.eqb_neq in Hne as Heq. rewrite Heq. simpl.
      eexists. split; [reflexivity|]. right. eauto.
    + simpl. eexists. split; [reflexivity|]. by left.
  - intros err Hkind Hfitz.
    unfold process_pdf_document. rewrite Hkind. simpl.
    unfold convert_pages, raise, mbind, M_bind. by rewrite Hfitz.
Qed.

Lemma upload_answers_bad_content_with_400_witness :
  let E := sample.env "id-1" (inr sample.full_text) [] None in
  upload_document E {| upload_filename := Some "Report.PDF";
                       upload_content := sample.text_bytes |} sample.empty_world
    = (HTTPException 400 "Could not determine file type from content.",
       sample.empty_world).
Proof. 
  destruct (proj1 (upload_answers_bad_content_with_400
                     (sample.env "id-1" (inr sample.full_text) [] None)
                     sample.empty_world "Report.PDF" sample.text_bytes eq_refl))
    as (detail & Hreply & _).
  - vm_compute. discriminate.
  - cbv zeta. rewrite Hreply. vm_compute in Hreply. congruence.
Defined.

(** X11.  For a PDF that rasterizes, uploaded under a name ending in
    [.pdf], the status tells apart what went wrong with the model's
    answer.  A failure of the call is a 500.  An answer that is not
    valid JSON is a 400 whose detail is the decoder's message, because
    [JSONDecodeError] is a [ValueError]; an answer that is valid JSON but
    not an object is a 500, the [AttributeError] of [.get]; an object
    whose [text_content] is null is a 400 again, the validation error
    being a [ValueError] too.  Whatever the error reply, the store is
    the one before the request. *)
Theorem upload_status_follows_the_model_answer
    (E : Env) (w : World) (name : string) (content : list Byte.byte)
    (pages : list (list Byte.byte)) :
  endswith (pystr.lower name) ".pdf" = true →
  filetype_guess E content = Some "application/pdf" →
  fitz_render E content = inr pages →
  let request := extraction_request (TextPart prompt_text :: map (image_part E) pages) in
  let reply := upload_document E {| upload_filename := Some name;
                                    upload_content := content |} w in
  (∀ err, chat_create E request = inl err →
     reply.1 = HTTPException 500 ("Failed to process document: " ++ err))
  ∧ (∀ answer msg, chat_create E request = inr answer →
       json_loads E answer = inl msg →
       reply.1 = HTTPException 400 msg)
  ∧ (∀ answer v, chat_create E request = inr answer →
       json_loads E answer = inr v → (∀ fields, v ≠ JObj fields) →
       reply.1 = HTTPException 500
                   ("Failed to process document: '" ++ type_name v
                    ++ "' object has no attribute 'get'"))
  ∧ (∀ answer fields, chat_create E request = inr answer →
       json_loads E answer = inr (JObj fields) →
       dict_lookup "text_content" fields = Some JNull →
       ∃ detail, reply.1 = HTTPException 400 detail)
  ∧ (∀ status_code detail, reply.1 = HTTPException status_code detail →
       documents_store reply.2 = documents_store w).
Proof.
  intros Hname Hkind Hfitz request reply. subst request reply.
  rewrite (upload_document_named _ _ _ _ Hname).
  split; [|split; [|split; [|split]]].
  - intros err Hchat. unfold process_pdf_document. rewrite Hkind. simpl.
    unfold convert_pages, try_except, extract_and_store, chat_completion, loads,
      lift, store_setitem, raise, print, mbind, M_bind, mret, M_ret.
    rewrite Hfitz. simpl. by rewrite Hchat.
  - intros answer msg Hchat Hjson. unfold process_pdf_document. rewrite Hkind. simpl.
    unfold convert_pages, try_except, extract_and_store, chat_completion, loads,
      lift, store_setitem, raise, print, mbind, M_bind, mret, M_ret.
    rewrite Hfitz. simpl. rewrite Hchat. simpl. by rewrite Hjson.
  - intros answer v Hchat Hjson Hshape. unfold process_pdf_document.
    rewrite Hkind. simpl.
    unfold convert_pages, try_except, extract_and_store, chat_completion, loads,
      lift, store_setitem, raise, print, mbind, M_bind, mret, M_ret.
    rewrite Hfitz. simpl. rewrite Hchat. simpl. rewrite Hjson. simpl.
    destruct v; try reflexivity. by destruct (Hshape fields).
  - intros answer fields Hchat Hjson Htext. unfold process_pdf_document.
    rewrite Hkind. simpl.
    unfold convert_pages, try_except, extract_and_store, chat_completion, loads,
      lift, store_setitem, raise, print, models.ProcessedDocument_init,
      dict_get, mbind, M_bind, mret, M_ret.
    rewrite Hfitz. simpl. rewrite Hchat. simpl. rewrite Hjson. simpl.
    rewrite Htext. simpl. eauto.
  - intros status_code detail.
    pose proof (process_pdf_document_store E w content name) as Hstore.
    destruct (process_pdf_document E content name w) as [[doc|e] w']; simpl.
    + discriminate.
    + intros _. by destruct (is_ValueError e).
Qed.

Lemma upload_status_follows_the_model_answer_witness :
  let E := sample.env "id-1" (inr sample.broken_text) [] None in
  (upload_document E {| upload_filename := Some "paper.pdf";
                        upload_content := sample.pdf_bytes |} sample.empty_world).1
    = HTTPException 400 "Expecting value: line 1 column 1 (char 0)".
Proof.
  apply (proj1 (proj2 (upload_status_follows_the_model_answer
                         (sample.env "id-1" (inr sample.broken_text) [] None)
                         sample.empty_world "paper.pdf" sample.pdf_bytes
                         [[Byte.x89; Byte.x50; Byte.x4e; Byte.x47]]
                         eq_refl eq_refl eq_refl)) sample.broken_text);
    reflexivity.
Defined.

(** The reply of [get_document_details]: it only reads. *)
Lemma get_document_details_reply (document_id : string) (w : World) :
  get_document_details document_id w =
    (match documents_store w !! document_id with
     | Some doc => Responds doc
     | None => HTTPException 404 "Document not found."
     end, w).
Proof.
  unfold get_document_details, store_contains, store_getitem.
  destruct (documents_store w !! document_id) as [doc|] eqn:Hdoc.
  - by rewrite bool_decide_eq_true_2 by eauto.
  - rewrite bool_decide_eq_false_2; [done|]. by intros [? ?].
Qed.

(** X12.  Upload and lookup compose: whenever [upload_document] responds,
    the response carries the name the file was uploaded under and the
    generated identifier, and [get_document_details] on that identifier,
    in the world the upload leaves, responds with a document of that
    identifier and filename. *)
Theorem uploaded_document_can_be_retrieved
    (E : Env) (w w' : World) (file : UploadFile)
    (response : DocumentUploadResponse.t) :
  upload_document E file w = (Responds response, w') →
  upload_filename file = Some (DocumentUploadResponse.filename response)
  ∧ DocumentUploadResponse.document_id response = uuid4 E
  ∧ DocumentUploadResponse.message response
    = "Document uploaded and processed successfully."
  ∧ ∃ doc,
      get_document_details (DocumentUploadResponse.document_id response) w'
        = (Responds doc, w')
      ∧ models.id doc = DocumentUploadResponse.document_id response
      ∧ models.filename doc = DocumentUploadResponse.filename response.
Proof.
  destruct file as [[name|] content]; unfold upload_document; simpl;
    [|discriminate].
  destruct (endswith (pystr.lower name) ".pdf"); simpl; [|discriminate].
  rewrite (guarded_map 400 "Failed to process document: "
             (process_pdf_document E content name)).
  pose proof (process_pdf_document_store E w content name) as Hstore.
  destruct (process_pdf_document E content name w) as [[doc|e] w1].
  - intros [= <- <-]. simpl. destruct Hstore as (Hst & Hid & Hname).
    repeat split; [by rewrite Hname | exact Hid |].
    exists doc. rewrite get_document_details_reply, Hst, Hid, lookup_insert_eq.
    by rewrite Hname.
  - destruct (is_ValueError e); discriminate.
Qed.

Lemma uploaded_document_can_be_retrieved_witness :
  let E := sample.env "id-1" (inr sample.only_title_text) [] None in
  let upload := upload_document E {| upload_filename := Some "paper.pdf";
                                     upload_content := sample.pdf_bytes |}
                  sample.empty_world in
  ∃ doc, get_document_details "id-1" upload.2 = (Responds doc, upload.2)
         ∧ models.id doc = "id-1" ∧ models.filename doc = "paper.pdf".
Proof.
  destruct (uploaded_document_can_be_retrieved
              (sample.env "id-1" (inr sample.only_title_text) [] None)
              sample.empty_world
              (upload_document (sample.env "id-1" (inr sample.only_title_text) [] None)
                 {| upload_filename := Some "paper.pdf";
                    upload_content := sample.pdf_bytes |} sample.empty_world).2
              {| upload_filename := Some "paper.pdf";
                 upload_content := sample.pdf_bytes |}
              {| DocumentUploadResponse.filename := "paper.pdf";
                 DocumentUploadResponse.message :=
                   "Document uploaded and processed successfully.";
                 DocumentUploadResponse.document_id := "id-1" |})
    as (_ & _ & _ & doc & Hget & Hid & Hname).
  - vm_compute. reflexivity.
  - exists doc. repeat split; assumption.
Defined.

(** X13.  A request about an identifier that is not in the store is
    answered with status 404 by all four handlers that take one, and
    none of them touches the world: [get_document_details] with the
    detail [Document not found.], the three others with the message of
    the pipeline, which names the identifier. *)
Theorem unknown_document_is_answered_with_404
    (E : Env) (C : Coercions) (w : World)
    (document_id question query : string)
    (section_title granularity : option string) :
  documents_store w !! document_id = None →
  let detail := "Document with ID " ++ document_id ++ " not found." in
  get_document_details document_id w
    = (HTTPException 404 "Document not found.", w)
  ∧ query_document_endpoint E
      {| QuestionRequest.document_id := document_id;
         QuestionRequest.question := question |} w
    = (HTTPException 404 detail, w)
  ∧ summarize_document_endpoint E
      {| SummarizeRequest.document_id := document_id;
         SummarizeRequest.section_title := section_title;
         SummarizeRequest.granularity := granularity |} w
    = (HTTPException 404 detail, w)
  ∧ extract_data_endpoint E C
      {| ExtractionRequest.document_id := document_id;
         ExtractionRequest.query := query |} w
    = (HTTPException 404 detail, w).
Proof.
  intros Habsent detail. subst detail.
  pose proof (require_document_absent _ _ Habsent) as Hreq.
  split; [|split; [|split]].
  - by rewrite get_document_details_reply, Habsent.
  - unfold query_document_endpoint. rewrite guarded_map. simpl.
    unfold query_document. by rewrite (bind_raises _ _ _ _ _ Hreq).
  - unfold summarize_document_endpoint. rewrite guarded_map. simpl.
    unfold summarize_document_section. by rewrite (bind_raises _ _ _ _ _ Hreq).
  - unfold extract_data_endpoint, guarded. simpl.
    unfold extract_evaluation_results.
    rewrite (bind_raises _ _ _ _ _
               (bind_raises _ _ _ _ _ Hreq)). reflexivity.
Qed.

Lemma unknown_document_is_answered_with_404_witness :
  let E := sample.env "id-1" (inr "An answer.") [] None in
  let w := sample.world_with (sample.stored "d" sample.full_metadata) in
  query_document_endpoint E
    {| QuestionRequest.document_id := "e"; QuestionRequest.question := "Why?" |} w
    = (HTTPException 404 "Document with ID e not found.", w).
Proof.
  apply (unknown_document_is_answered_with_404
           (sample.env "id-1" (inr "An answer.") [] None)
           {| coerce_str := fun _ => None; coerce_dict := fun _ => None |}
           (sample.world_with (sample.stored "d" sample.full_metadata))
           "e" "Why?" "accuracy" None None).
  vm_compute. reflexivity.
Defined.

(** A section lookup that meets only other titles raises the
    section-not-found error. *)
Lemma summarize_without_match E w document_id wanted granularity doc sections :
  documents_store w !! document_id = Some doc →
  wanted ≠ "" →
  dict_get (models.metadata doc) "sections" (JArr []) = JArr sections →
  Forall (other_title wanted) sections →
  summarize_document_section E document_id (Some wanted) granularity w
    = (Raises (section_not_found wanted), w).
Proof.
  intros Hdoc Hwanted Hsections Hnone.
  unfold summarize_document_section.
  rewrite (bind_returns _ _ _ _ _ (require_document_present _ _ _ Hdoc)).
  unfold content_to_summarize. rewrite (given_nonempty _ Hwanted), Hsections.
  simpl. rewrite <- (app_nil_r sections), (find_section_skips _ _ _ Hnone).
  reflexivity.
Qed.

(** X14.  [summarize_document_endpoint] answers a title that no section
    carries with status 404, the detail quoting the title as it was
    requested; a section without a [title] met by the lookup is instead
    answered with status 500.  In both cases the world is untouched. *)
Theorem summarize_endpoint_tells_missing_from_malformed
    (E : Env) (w : World) (document_id wanted : string)
    (granularity : option string) (doc : models.ProcessedDocument)
    (sections : list json) :
  documents_store w !! document_id = Some doc →
  wanted ≠ "" →
  dict_get (models.metadata doc) "sections" (JArr []) = JArr sections →
  let reply := summarize_document_endpoint E
                 {| SummarizeRequest.document_id := document_id;
                    SummarizeRequest.section_title := Some wanted;
                    SummarizeRequest.granularity := granularity |} w in
  (Forall (other_title wanted) sections →
     reply = (HTTPException 404 ("Section '" ++ wanted ++ "' not found in document."), w))
  ∧ (∀ (before after : list json) (fields : list (string * json)),
       sections = (before ++ JObj fields :: after)%list →
       Forall (other_title wanted) before →
       dict_lookup "title" fields = None →
       reply = (HTTPException 500 "Failed to summarize document: 'title'", w)).
Proof.
  intros Hdoc Hwanted Hsections reply. subst reply.
  unfold summarize_document_endpoint. rewrite guarded_map. simpl. split.
  - intros Hnone.
    by rewrite (summarize_without_match E w document_id wanted _ doc sections).
  - intros before after fields -> Hbefore Htitle.
    unfold summarize_document_section.
    rewrite (bind_returns _ _ _ _ _ (require_document_present _ _ _ Hdoc)).
    unfold content_to_summarize. rewrite (given_nonempty _ Hwanted), Hsections.
    simpl. rewrite (find_section_skips _ _ _ Hbefore). simpl.
    by rewrite Htitle.
Qed.

Lemma summarize_endpoint_tells_missing_from_malformed_witness :
  let E := sample.env "id-1" (inr " A summary. ") [] None in
  let w := sample.world_with (sample.stored "d" sample.full_metadata) in
  summarize_document_endpoint E
    {| SummarizeRequest.document_id := "d";
       SummarizeRequest.section_title := Some "Methods";
       SummarizeRequest.granularity := Some "overview" |} w
    = (HTTPException 404 "Section 'Methods' not found in document.", w).
Proof.
  apply (proj1 (summarize_endpoint_tells_missing_from_malformed
                  (sample.env "id-1" (inr " A summary. ") [] None)
                  (sample.world_with (sample.stored "d" sample.full_metadata))
                  "d" "Methods" (Some "overview")
                  (sample.stored "d" sample.full_metadata)
                  [sample.intro_section; sample.results_section]
                  ltac:(vm_compute; reflexivity) ltac:(discriminate)
                  ltac:(reflexivity))).
  repeat constructor.
  - exists "Introduction". split; [reflexivity | vm_compute; discriminate].
  - exists "Results". split; [reflexivity | vm_compute; discriminate].
Defined.

End handlers.

(** A decoded value that is [None], a [bool] or a number. *)
Definition is_scalar (v : json) : bool :=
  match v with
  | JNull | JBool _ | JInt _ | JFloat _ => true
  | JStr _ | JArr _ | JObj _ => false
  end.

(** The [ArxivPaper] that corresponds to one result of the search. *)
Definition paper_of (result : ArxivResult) : api_models.ArxivPaper.t :=
  {| api_models.ArxivPaper.title := result_title result;
     api_models.ArxivPaper.authors := result_authors result;
     api_models.ArxivPaper.summary := result_summary result;
     api_models.ArxivPaper.url := result_entry_id result;
     api_models.ArxivPaper.published := result_published_isoformat result |}.

Section data_handlers.

Import gemini api_models main.

(** The reply of [extract_data_endpoint] on a stored document. *)
Lemma extract_data_endpoint_reply
    (E : Env) (C : Coercions) (w : World) (document_id query : string)
    (doc : models.ProcessedDocument) :
  documents_store w !! document_id = Some doc →
  (extract_data_endpoint E C
     {| ExtractionRequest.document_id := document_id;
        ExtractionRequest.query := query |} w).1 =
    match chat_create E (results_request E doc query) with
    | inl err => HTTPException 500 ("Failed to extract data: " ++ err)
    | inr answer =>
        let value := match json_loads E answer with
                     | inl _ => parse_error_object
                     | inr v => v
                     end in
        match validate_dict C "extracted_data" value with
        | Returns data =>
            Responds {| ExtractionResponse.document_id := document_id;
                        ExtractionResponse.query := query;
                        ExtractionResponse.extracted_data := data |}
        | Raises e => HTTPException 404 (exn_str e)
        end
    end.
Proof.
  intros Hdoc.
  pose proof (require_document_present _ _ _ Hdoc) as Hreq.
  unfold extract_data_endpoint, guarded. simpl.
  unfold mbind at 1. unfold M_bind at 1. unfold extract_evaluation_results.
  rewrite (bind_returns _ _ _ _ _ Hreq).
  unfold chat_completion, try_except, loads, print, raise, lift,
    ExtractionResponse_init, mbind, M_bind, outcome_bind, mret, M_ret.
  destruct (chat_create E _) as [err|answer]; simpl; [reflexivity|].
  destruct (json_loads E answer) as [msg|v]; simpl.
  - reflexivity.
  - destruct (validate_dict C "extracted_data" v) as [data|e] eqn:Hv; simpl;
      [reflexivity|].
    assert (is_ValueError e = true) as ->; [|reflexivity].
    revert Hv. unfold validate_dict.
    destruct v; try (intros [= <-]; reflexivity); try discriminate;
      destruct (coerce_dict C _); try discriminate; intros [= <-]; reflexivity.
Qed.

(** X15.  For a stored document, [extract_data_endpoint] turns the
    model's answer into a reply as follows.  A failed call is a 500.  An
    answer that is not valid JSON is a normal response whose data is the
    single-key error object.  An answer that is a JSON object is a normal
    response with that object as data.  An answer that is valid JSON but
    is null, a boolean or a number is refused by the response model, and
    since that refusal is a [ValueError] the reply is a 404. *)
Theorem extract_endpoint_reply_follows_the_answer
    (E : Env) (C : Coercions) (w : World) (document_id query : string)
    (doc : models.ProcessedDocument) :
  documents_store w !! document_id = Some doc →
  let reply := extract_data_endpoint E C
                 {| ExtractionRequest.document_id := document_id;
                    ExtractionRequest.query := query |} w in
  let respond data :=
    Responds {| ExtractionResponse.document_id := document_id;
                ExtractionResponse.query := query;
                ExtractionResponse.extracted_data := data |} in
  (∀ err, chat_create E (results_request E doc query) = inl err →
     reply.1 = HTTPException 500 ("Failed to extract data: " ++ err))
  ∧ (∀ answer msg, chat_create E (results_request E doc query) = inr answer →
       json_loads E answer = inl msg →
       reply.1 = respond [("error", JStr "Could not parse extracted results as JSON.")])
  ∧ (∀ answer fields, chat_create E (results_request E doc query) = inr answer →
       json_loads E answer = inr (JObj fields) →
       reply.1 = respond fields)
  ∧ (∀ answer v, chat_create E (results_request E doc query) = inr answer →
       json_loads E answer = inr v → is_scalar v = true →
       ∃ detail, reply.1 = HTTPException 404 detail).
Proof.
  intros Hdoc reply respond. subst reply respond.
  rewrite (extract_data_endpoint_reply E C w document_id query doc Hdoc).
  split; [|split; [|split]].
  - intros err Hchat. by rewrite Hchat.
  - intros answer msg Hchat Hjson. by rewrite Hchat, Hjson.
  - intros answer fields Hchat Hjson. by rewrite Hchat, Hjson.
  - intros answer v Hchat Hjson Hscalar. rewrite Hchat, Hjson. simpl.
    destruct v; try discriminate Hscalar; simpl; eauto.
Qed.

Lemma extract_endpoint_reply_follows_the_answer_witness :
  let E := sample.env "id-1" (inr "null") [] None in
  let E' := {| filetype_guess := filetype_guess E; uuid4 := uuid4 E;
               fitz_render := fitz_render E; b64encode := b64encode E;
               chat_create := chat_create E;
               json_loads := fun text =>
                 if String.eqb text "null" then inr JNull else sample.decode text;
               json_dumps := json_dumps E; py_repr := py_repr E;
               pydantic_coerce := pydantic_coerce E;
               arxiv_results := arxiv_results E |} in
  let C := {| coerce_str := fun _ => None; coerce_dict := fun _ => None |} in
  let w := sample.world_with (sample.stored "d" sample.full_metadata) in
  ∃ detail,
    (extract_data_endpoint E' C
       {| ExtractionRequest.document_id := "d";
          ExtractionRequest.query := "accuracy" |} w).1
      = HTTPException 404 detail.
Proof.
  cbv zeta.
  eapply (extract_endpoint_reply_follows_the_answer _ _ _ "d" "accuracy"
            (sample.stored "d" sample.full_metadata)).
  - vm_compute. reflexivity.
  - reflexivity.
  - reflexivity.
  - reflexivity.
Defined.

Lemma validate_strs_of_strings C field (items : list string) :
  validate_strs C field (map JStr items) = Returns items.
Proof.
  induction items as [|s rest IH]; simpl; [done|]. by rewrite IH.
Qed.

(** Round trip: the record built for a result validates as the paper of
    that result, whatever the installed pydantic coerces. *)
Lemma ArxivPaper_validate_paper_record C (result : ArxivResult) :
  ArxivPaper_validate C (paper_record result) = Returns (paper_of result).
Proof.
  unfold ArxivPaper_validate, paper_record, required_str, required_strs. simpl.
  by rewrite validate_strs_of_strings.
Qed.

Lemma validate_papers_paper_records C (found : list ArxivResult) :
  validate_papers C (map paper_record found) = Returns (map paper_of found).
Proof.
  induction found as [|r rest IH]; simpl; [done|].
  by rewrite ArxivPaper_validate_paper_record, IH.
Qed.

(** The reply of [arxiv_search_endpoint] in full. *)
Lemma arxiv_search_endpoint_reply E C (request : ArxivSearchRequest.t) w :
  ∃ w',
    arxiv_search_endpoint E C request w
      = (Responds
           {| ArxivSearchResponse.query := ArxivSearchRequest.query request;
              ArxivSearchResponse.papers :=
                match arxiv_results E (ArxivSearchRequest.query request)
                        (ArxivSearchRequest.max_results request) with
                | (found, None) => map paper_of found
                | (_, Some _) => []
                end |}, w')
    ∧ documents_store w' = documents_store w
    ∧ chat_calls w' = chat_calls w.
Proof.
  unfold arxiv_search_endpoint, arxiv_lookup_tool, search_papers, try_except,
    print, raise, lift, ArxivSearchResponse_init, mbind, M_bind, mret, M_ret.
  destruct (arxiv_results E _ _) as [found [e|]]; simpl.
  - eexists. split; [reflexivity|]. by split.
  - rewrite validate_papers_paper_records. simpl.
    eexists. split; [reflexivity|]. by split.
Qed.

(** X16.  [arxiv_search_endpoint] always responds, never with an error
    status: every record [arxiv_lookup_tool] builds passes the validation
    of [ArxivPaper] unchanged, field for field and in order, so the
    response echoes the query and carries one paper per result of a
    successful search and no paper when the search failed.  The store
    and the generation capability are not involved. *)
Theorem arxiv_search_always_responds
    (E : Env) (C : Coercions) (w : World) (request : ArxivSearchRequest.t) :
  ∃ response w',
    arxiv_search_endpoint E C request w = (Responds response, w')
    ∧ ArxivSearchResponse.query response = ArxivSearchRequest.query request
    ∧ documents_store w' = documents_store w
    ∧ chat_calls w' = chat_calls w
    ∧ (∀ found e,
         arxiv_results E (ArxivSearchRequest.query request)
           (ArxivSearchRequest.max_results request) = (found, Some e) →
         ArxivSearchResponse.papers response = [])
    ∧ (∀ found,
         arxiv_results E (ArxivSearchRequest.query request)
           (ArxivSearchRequest.max_results request) = (found, None) →
         ArxivSearchResponse.papers response = map paper_of found).
Proof.
  destruct (arxiv_search_endpoint_reply E C request w) as (w' & Hrun & Hst & Hcalls).
  eexists _, w'. split; [exact Hrun|]. simpl.
  split; [reflexivity|]. split; [exact Hst|]. split; [exact Hcalls|]. split.
  - intros found e ->. reflexivity.
  - intros found ->. reflexivity.
Qed.

Lemma arxiv_search_always_responds_witness :
  let E := sample.env "id-1" (inr "") [sample.paper "1"] None in
  let C := {| coerce_str := fun _ => None; coerce_dict := fun _ => None |} in
  ∃ response,
    (arxiv_search_endpoint E C
       {| ArxivSearchRequest.query := "caching";
          ArxivSearchRequest.max_results := 5 |} sample.empty_world).1
      = Responds response
    ∧ ArxivSearchResponse.papers response = [paper_of (sample.paper "1")].
Proof.
  destruct (arxiv_search_always_responds
              (sample.env "id-1" (inr "") [sample.paper "1"] None)
              {| coerce_str := fun _ => None; coerce_dict := fun _ => None |}
              sample.empty_world
              {| ArxivSearchRequest.query := "caching";
                 ArxivSearchRequest.max_results := 5 |})
    as (response & w' & Hrun & _ & _ & _ & _ & Hok).
  exists response. cbv zeta. rewrite Hrun. split; [reflexivity|].
  exact (Hok [sample.paper "1"] eq_refl).
Defined.

Lemma guarded_status {A : Type} (client_status : Z) (prefix : string)
    (m : M A) (w : World) :
  status_among [client_status; 500%Z] (guarded client_status prefix m w).1.
Proof.
  unfold guarded. destruct (m w) as [[a|e] w']; simpl; [exact I|].
  destruct (is_ValueError e); simpl; set_solver.
Qed.

(** X17.  The statuses each handler can answer with.  Given a filename,
    [upload_document] responds or raises 400 or 500; [get_document_details]
    responds or raises 404; the question, summary and extraction handlers
    respond or raise 404 or 500; [arxiv_search_endpoint] only responds.
    In none of these cases does an exception escape the handler. *)
Theorem handlers_answer_with_known_statuses
    (E : Env) (C : Coercions) (w : World) (name document_id : string)
    (content : list Byte.byte) (question : QuestionRequest.t)
    (summary : SummarizeRequest.t) (extraction : ExtractionRequest.t)
    (search : ArxivSearchRequest.t) :
  status_among [400; 500]%Z
    (upload_document E {| upload_filename := Some name;
                          upload_content := content |} w).1
  ∧ status_among [404]%Z (get_document_details document_id w).1
  ∧ status_among [404; 500]%Z (query_document_endpoint E question w).1
  ∧ status_among [404; 500]%Z (summarize_document_endpoint E summary w).1
  ∧ status_among [404; 500]%Z (extract_data_endpoint E C extraction w).1
  ∧ status_among [] (arxiv_search_endpoint E C search w).1.
Proof.
  split; [|split; [|split; [|split; [|split]]]].
  - unfold upload_document. simpl.
    destruct (endswith (pystr.lower name) ".pdf"); simpl;
      [apply guarded_status | set_solver].
  - rewrite get_document_details_reply. simpl.
    destruct (documents_store w !! document_id); simpl; [exact I | set_solver].
  - apply guarded_status.
  - apply guarded_status.
  - apply guarded_status.
  - destruct (arxiv_search_endpoint_reply E C search w) as (w' & -> & _).
    exact I.
Qed.

End data_handlers.

(** ** Requests one after the other *)

(** From [w] to [w'] nothing is taken away: every identifier of the
    store is still in it, and the requests sent and the lines printed
    before are a prefix of those after. *)
Definition grows (w w' : World) : Prop :=
  dom (documents_store w) ⊆ dom (documents_store w')
  ∧ chat_calls w `prefix_of` chat_calls w'
  ∧ stdout w `prefix_of` stdout w'.

(** A computation that takes nothing away, whatever its result. *)
Definition monotone {A : Type} (m : M A) : Prop := ∀ w, grows w (m w).2.

Section sequences.

Import gemini api_models main.

Lemma grows_refl (w : World) : grows w w.
Proof. repeat split; reflexivity. Qed.

Lemma grows_trans (w1 w2 w3 : World) : grows w1 w2 → grows w2 w3 → grows w1 w3.
Proof.
  intros (Hd & Hc & Ho) (Hd' & Hc' & Ho').
  repeat split; etrans; eassumption.
Qed.

Lemma monotone_ret {A : Type} (a : A) : monotone (mret a).
Proof. intros w. apply grows_refl. Qed.

Lemma monotone_raise {A : Type} (e : exn) : monotone (raise (A := A) e).
Proof. intros w. apply grows_refl. Qed.

Lemma monotone_lift {A : Type} (o : outcome A) : monotone (lift o).
Proof. intros w. apply grows_refl. Qed.

Lemma monotone_bind {A B : Type} (m : M A) (k : A → M B) :
  monotone m → (∀ a, monotone (k a)) → monotone (m ≫= k).
Proof.
  intros Hm Hk w. unfold mbind, M_bind. specialize (Hm w).
  destruct (m w) as [[a|e] w']; simpl in *; [|exact Hm].
  exact (grows_trans _ _ _ Hm (Hk a w')).
Qed.

Lemma monotone_try_except {A : Type} (m : M A) (handler : exn → M A) :
  monotone m → (∀ e, monotone (handler e)) → monotone (try_except m handler).
Proof.
  intros Hm Hh w. unfold try_except. specialize (Hm w).
  destruct (m w) as [[a|e] w']; simpl in *; [exact Hm|].
  exact (grows_trans _ _ _ Hm (Hh e w')).
Qed.

Lemma monotone_print (line : string) : monotone (print line).
Proof.
  intros w. repeat split; simpl; try reflexivity. by apply prefix_app_r.
Qed.

Lemma monotone_store_contains (document_id : string) :
  monotone (store_contains document_id).
Proof. intros w. apply grows_refl. Qed.

Lemma monotone_store_getitem (document_id : string) :
  monotone (store_getitem document_id).
Proof.
  intros w. unfold store_getitem.
  destruct (documents_store w !! document_id); apply grows_refl.
Qed.

Lemma monotone_store_setitem (doc_id : string) (doc : models.ProcessedDocument) :
  monotone (store_setitem doc_id doc).
Proof.
  intros w. repeat split; simpl; try reflexivity.
  rewrite dom_insert_L. set_solver.
Qed.

Lemma monotone_chat_completion (E : Env) (request : ChatRequest) :
  monotone (chat_completion E request).
Proof.
  intros w. unfold chat_completion.
  destruct (chat_create E request); repeat split; simpl; try reflexivity;
    by apply prefix_app_r.
Qed.

Lemma monotone_loads (E : Env) (content : string) : monotone (loads E content).
Proof.
  unfold loads. destruct (json_loads E content);
    [apply monotone_raise | apply monotone_ret].
Qed.

Lemma monotone_require_document (document_id : string) :
  monotone (require_document document_id).
Proof.
  unfold require_document. apply monotone_bind; [apply monotone_store_contains|].
  intros present. destruct (negb present);
    [apply monotone_raise | apply monotone_store_getitem].
Qed.

Lemma monotone_process_pdf_document E file_content filename :
  monotone (process_pdf_document E file_content filename).
Proof.
  unfold process_pdf_document.
  destruct (filetype_guess E file_content) as [mime|]; [|apply monotone_raise].
  destruct (negb (String.eqb mime "application/pdf")); [apply monotone_raise|].
  apply monotone_bind.
  - unfold convert_pages. destruct (fitz_render E file_content);
      [apply monotone_raise | apply monotone_ret].
  - intros parts. apply monotone_try_except.
    + unfold extract_and_store.
      apply monotone_bind; [apply monotone_chat_completion|]. intros content.
      apply monotone_bind; [apply monotone_loads|]. intros v.
      destruct v; try apply monotone_raise.
      apply monotone_bind; [apply monotone_lift|]. intros doc.
      apply monotone_bind; [apply monotone_store_setitem|]. intros _.
      apply monotone_ret.
    + intros e. apply monotone_bind; [apply monotone_print|]. intros _.
      apply monotone_raise.
Qed.

Lemma monotone_query_document E document_id question :
  monotone (query_document E document_id question).
Proof.
  unfold query_document.
  apply monotone_bind; [apply monotone_require_document|]. intros doc.
  apply monotone_bind; [apply monotone_chat_completion|]. intros content.
  apply monotone_ret.
Qed.

Lemma monotone_summarize_document_section E document_id section_title granularity :
  monotone (summarize_document_section E document_id section_title granularity).
Proof.
  unfold summarize_document_section, summarize_content.
  apply monotone_bind; [apply monotone_require_document|]. intros doc.
  apply monotone_bind; [apply monotone_lift|]. intros content.
  apply monotone_bind; [apply monotone_lift|]. intros stripped.
  destruct (negb (pystr.truthy stripped)); [apply monotone_ret|].
  apply monotone_bind; [apply monotone_chat_completion|]. intros response.
  apply monotone_ret.
Qed.

Lemma monotone_extract_evaluation_results E document_id query :
  monotone (extract_evaluation_results E document_id query).
Proof.
  unfold extract_evaluation_results.
  apply monotone_bind; [apply monotone_require_document|]. intros doc.
  apply monotone_bind; [apply monotone_chat_completion|]. intros content.
  apply monotone_try_except; [apply monotone_loads|]. intros e.
  destruct e; try apply monotone_raise.
  apply monotone_bind; [apply monotone_print|]. intros _. apply monotone_ret.
Qed.

Lemma monotone_arxiv_lookup_tool E query max_results :
  monotone (arxiv_lookup_tool E query max_results).
Proof.
  unfold arxiv_lookup_tool.
  apply monotone_bind; [apply monotone_print|]. intros _.
  apply monotone_try_except.
  - unfold search_papers. destruct (arxiv_results E query max_results) as [found [e|]];
      [apply monotone_raise | apply monotone_ret].
  - intros e. apply monotone_bind; [apply monotone_print|]. intros _.
    apply monotone_ret.
Qed.

Lemma guarded_world {A : Type} (client_status : Z) (prefix : string)
    (m : M A) (w : World) :
  (guarded client_status prefix m w).2 = (m w).2.
Proof.
  unfold guarded. destruct (m w) as [[a|e] w']; [done|].
  by destruct (is_ValueError e).
Qed.

(** Serving one request takes nothing away. *)
Lemma serve_grows (r : request) (w : World) : grows w (serve r w).
Proof.
  destruct r as [E file | document_id | E q | E q | E C q | E C q]; simpl.
  - unfold upload_document. destruct (upload_filename file) as [name|];
      [|apply grows_refl].
    destruct (negb (endswith (pystr.lower name) ".pdf")); [apply grows_refl|].
    rewrite guarded_world.
    apply (monotone_bind (process_pdf_document E (upload_content file) name));
      [apply monotone_process_pdf_document | intros doc; apply monotone_ret].
  - rewrite get_document_details_reply. apply grows_refl.
  - unfold query_document_endpoint. rewrite guarded_world.
    apply (monotone_bind (query_document E _ _));
      [apply monotone_query_document | intros a; apply monotone_ret].
  - unfold summarize_document_endpoint. rewrite guarded_world.
    apply (monotone_bind (summarize_document_section E _ _ _));
      [apply monotone_summarize_document_section | intros a; apply monotone_ret].
  - unfold extract_data_endpoint. rewrite guarded_world.
    apply (monotone_bind (extract_evaluation_results E _ _));
      [apply monotone_extract_evaluation_results | intros a; apply monotone_lift].
  - unfold arxiv_search_endpoint.
    pose proof (monotone_bind (arxiv_lookup_tool E (ArxivSearchRequest.query q)
                                 (ArxivSearchRequest.max_results q))
                  (fun papers => lift (ArxivSearchResponse_init C
                                         (ArxivSearchRequest.query q) papers))
                  (monotone_arxiv_lookup_tool _ _ _)
                  (fun papers => monotone_lift _) w) as H.
    destruct ((arxiv_lookup_tool E _ _ ≫= _) w) as [[a|e] w']; exact H.
Qed.

(** X18.  Whatever requests are served one after the other, and
    whatever the outside world answers during each, the application
    never takes anything away: every identifier that was in the store is
    still in it, and the requests sent to the generation capability and
    the lines printed so far are only ever appended to. *)
Theorem serving_requests_never_removes_anything
    (requests : list request) (w : World) :
  grows w (serve_all requests w).
Proof.
  revert w. induction requests as [|r rest IH]; intros w; simpl.
  - apply grows_refl.
  - exact (grows_trans _ _ _ (serve_grows r w) (IH (serve r w))).
Qed.

End sequences.

Section stability.

Import gemini api_models main.

Lemma bind_pure_world {A B : Type} (m : M A) (k : A → M B) (w : World) :
  (∀ a w1, (k a w1).2 = w1) → ((m ≫= k) w).2 = (m w).2.
Proof.
  intros Hk. unfold mbind, M_bind. destruct (m w) as [[a|e] w']; [apply Hk | done].
Qed.

(** What serving one request does to the store: nothing, or, for an
    upload, one binding of the identifier it generated. *)
Lemma serve_store (r : request) (w : World) :
  documents_store (serve r w) = documents_store w
  ∨ ∃ document_id doc,
      generated_id r = Some document_id
      ∧ documents_store (serve r w) = <[document_id := doc]> (documents_store w).
Proof.
  destruct r as [E file | document_id | E q | E q | E C q | E C q]; simpl.
  - unfold upload_document. destruct (upload_filename file) as [name|]; [|by left].
    destruct (negb (endswith (pystr.lower name) ".pdf")); [by left|].
    rewrite guarded_world, bind_pure_world by done.
    pose proof (process_pdf_document_store E w (upload_content file) name) as H.
    destruct (process_pdf_document E (upload_content file) name w) as [[doc|e] w'];
      simpl; [|by left].
    right. exists (uuid4 E), doc. by destruct H as (-> & _ & _).
  - left. by rewrite get_document_details_reply.
  - left. unfold query_document_endpoint.
    rewrite guarded_world, bind_pure_world by done.
    destruct (query_document_step E (QuestionRequest.document_id q)
                (QuestionRequest.question q) w) as (new & (H & _) & _). exact H.
  - left. unfold summarize_document_endpoint.
    rewrite guarded_world, bind_pure_world by done.
    destruct (summarize_document_section_step E (SummarizeRequest.document_id q)
                (SummarizeRequest.section_title q)
                (format_optional (SummarizeRequest.granularity q)) w)
      as (new & (H & _) & _). exact H.
  - left. unfold extract_data_endpoint.
    rewrite guarded_world, bind_pure_world by done.
    destruct (extract_evaluation_results_step E (ExtractionRequest.document_id q)
                (ExtractionRequest.query q) w) as (new & H & _). exact H.
  - left. destruct (arxiv_search_endpoint_reply E C q w) as (w' & -> & H & _).
    exact H.
Qed.

(** X19.  A stored document stays exactly as it is through any sequence
    of requests, as long as no upload among them generates its
    identifier: the store has the same entry for the identifier before
    and after, so [get_document_details] gives the same reply at both
    ends. *)
Theorem stored_document_is_stable
    (requests : list request) (w : World) (document_id : string) :
  Forall (fun r => generated_id r ≠ Some document_id) requests →
  documents_store (serve_all requests w) !! document_id
    = documents_store w !! document_id
  ∧ (get_document_details document_id (serve_all requests w)).1
    = (get_document_details document_id w).1.
Proof.
  intros Hfresh.
  assert (documents_store (serve_all requests w) !! document_id
          = documents_store w !! document_id) as Hsame.
  { revert w. induction Hfresh as [|r rest Hr _ IH]; intros w; simpl; [done|].
    rewrite IH.
    destruct (serve_store r w) as [-> | (other & doc & Hgen & ->)]; [done|].
    apply lookup_insert_ne. congruence. }
  split; [exact Hsame|].
  by rewrite !get_document_details_reply, Hsame.
Qed.

Lemma stored_document_is_stable_witness :
  let E := sample.env "id-1" (inr sample.full_text) [] None in
  let C := {| coerce_str := fun _ => None; coerce_dict := fun _ => None |} in
  let doc := sample.stored "d" sample.full_metadata in
  let requests :=
    [QueryDocument E {| QuestionRequest.document_id := "d";
                        QuestionRequest.question := "What is measured?" |};
     UploadDocument E {| upload_filename := Some "other.pdf";
                         upload_content := sample.pdf_bytes |};
     ExtractData E C {| ExtractionRequest.document_id := "d";
                        ExtractionRequest.query := "accuracy" |};
     GetDocumentDetails "d"] in
  documents_store (serve_all requests (sample.world_with doc)) !! "d" = Some doc
  ∧ (get_document_details "d" (serve_all requests (sample.world_with doc))).1
    = Responds doc.
Proof.
  cbv zeta.
  destruct (stored_document_is_stable
              [QueryDocument (sample.env "id-1" (inr sample.full_text) [] None)
                 {| QuestionRequest.document_id := "d";
                    QuestionRequest.question := "What is measured?" |};
               UploadDocument (sample.env "id-1" (inr sample.full_text) [] None)
                 {| upload_filename := Some "other.pdf";
                    upload_content := sample.pdf_bytes |};
               ExtractData (sample.env "id-1" (inr sample.full_text) [] None)
                 {| coerce_str := fun _ => None; coerce_dict := fun _ => None |}
                 {| ExtractionRequest.document_id := "d";
                    ExtractionRequest.query := "accuracy" |};
               GetDocumentDetails "d"]
              (sample.world_with (sample.stored "d" sample.full_metadata)) "d")
    as [Hstore Hget].
  - repeat constructor; simpl; discriminate.
  - rewrite Hstore, Hget. split; vm_compute; reflexivity.
Defined.

(** X20.  The store holds nothing but what was there and what uploads
    put in: after any sequence of requests, an identifier that is in the
    store was in it before or is the identifier generated by one of the
    uploads of the sequence. *)
Theorem only_uploads_add_documents
    (requests : list request) (w : World) (document_id : string) :
  is_Some (documents_store (serve_all requests w) !! document_id) →
  is_Some (documents_store w !! document_id)
  ∨ Exists (fun r => generated_id r = Some document_id) requests.
Proof.
  revert w. induction requests as [|r rest IH]; intros w; simpl; [by left|].
  intros Hafter. destruct (IH _ Hafter) as [Hmid | Hlater].
  - destruct (serve_store r w) as [Hsame | (other & doc & Hgen & Hins)].
    + left. by rewrite <- Hsame.
    + rewrite Hins in Hmid. destruct (decide (other = document_id)) as [->|Hne].
      * right. by constructor.
      * left. by rewrite lookup_insert_ne in Hmid.
  - right. by constructor 2.
Qed.

Lemma only_uploads_add_documents_witness :
  let E := sample.env "id-1" (inr sample.full_text) [] None in
  let requests :=
    [UploadDocument E {| upload_filename := Some "paper.pdf";
                         upload_content := sample.pdf_bytes |}] in
  is_Some (documents_store sample.empty_world !! "id-1")
  ∨ Exists (fun r => generated_id r = Some "id-1") requests.
Proof.
  apply (only_uploads_add_documents
           [UploadDocument (sample.env "id-1" (inr sample.full_text) [] None)
              {| upload_filename := Some "paper.pdf";
                 upload_content := sample.pdf_bytes |}]
           sample.empty_world "id-1").
  eexists. vm_compute. reflexivity.
Defined.

End stability.

(** ** What the queries read of a document *)

Section reads.

Import gemini.

(** X21.  The query coroutines read nothing of a stored document but
    its metadata: for two worlds that hold, under the same identifier,
    documents with equal metadata, whatever their filenames and extracted
    texts, each coroutine returns the same value or raises the same
    exception. *)
Theorem queries_depend_on_metadata_only
    (E : Env) (w w' : World) (document_id question query granularity : string)
    (section_title : option string) (doc doc' : models.ProcessedDocument) :
  documents_store w !! document_id = Some doc →
  documents_store w' !! document_id = Some doc' →
  models.metadata doc = models.metadata doc' →
  (query_document E document_id question w).1
    = (query_document E document_id question w').1
  ∧ (summarize_document_section E document_id section_title granularity w).1
    = (summarize_document_section E document_id section_title granularity w').1
  ∧ (extract_evaluation_results E document_id query w).1
    = (extract_evaluation_results E document_id query w').1.
Proof.
  intros Hdoc Hdoc' Hmeta.
  pose proof (require_document_present _ _ _ Hdoc) as Hreq.
  pose proof (require_document_present _ _ _ Hdoc') as Hreq'.
  assert (content_to_summarize E doc section_title
          = content_to_summarize E doc' section_title) as Hcontent
    by (unfold content_to_summarize; by rewrite Hmeta).
  split; [|split].
  - unfold query_document.
    rewrite (bind_returns _ _ _ _ _ Hreq), (bind_returns _ _ _ _ _ Hreq'), Hmeta.
    unfold chat_completion, mbind, M_bind, mret, M_ret.
    by destruct (chat_create E _).
  - unfold summarize_document_section.
    rewrite (bind_returns _ _ _ _ _ Hreq), (bind_returns _ _ _ _ _ Hreq'), Hcontent.
    unfold summarize_content, lift, chat_completion, mbind, M_bind, mret, M_ret.
    destruct (content_to_summarize E doc' section_title) as [content|e]; [|done].
    destruct (py.strip content) as [stripped|e]; [|done].
    destruct (negb (pystr.truthy stripped)); [done|].
    by destruct (chat_create E _).
  - unfold extract_evaluation_results.
    rewrite (bind_returns _ _ _ _ _ Hreq), (bind_returns _ _ _ _ _ Hreq').
    unfold results_request. rewrite Hmeta.
    unfold chat_completion, try_except, loads, print, raise, mbind, M_bind,
      mret, M_ret.
    destruct (chat_create E _) as [err|content]; [done|].
    by destruct (json_loads E content).
Qed.

Lemma queries_depend_on_metadata_only_witness :
  let E := sample.env "id-1" (inr " An answer. ") [] None in
  let doc := sample.stored "d" sample.full_metadata in
  let renamed := {| models.id := "d"; models.filename := "renamed.pdf";
                    models.extracted_text := "flat text";
                    models.metadata := sample.full_metadata |} in
  (query_document E "d" "What is measured?" (sample.world_with doc)).1
    = (query_document E "d" "What is measured?" (sample.world_with renamed)).1.
Proof.
  apply (queries_depend_on_metadata_only
           (sample.env "id-1" (inr " An answer. ") [] None)
           (sample.world_with (sample.stored "d" sample.full_metadata))
           (sample.world_with
              {| models.id := "d"; models.filename := "renamed.pdf";
                 models.extracted_text := "flat text";
                 models.metadata := sample.full_metadata |})
           "d" "What is measured?" "accuracy" "overview" None
           (sample.stored "d" sample.full_metadata)
           {| models.id := "d"; models.filename := "renamed.pdf";
              models.extracted_text := "flat text";
              models.metadata := sample.full_metadata |});
    vm_compute; reflexivity.
Defined.

End reads.
